(** * POC_Multilingual: the code-mixed chat and TTS pipelines

    A shallow embedding of [chat.py] (language detection, system prompt
    construction, conversation session) and of the enhancement pass of
    [tts.py], with the properties of the specification stated over it.

    Python values that come back from [json.loads] are untyped, and the
    dataclasses of the program do not check their fields, so the embedding
    keeps them as [pyvalue].  Exceptions are an explicit [Raise] result and
    the OpenAI service is a function on an abstract world state. *)

From Stdlib Require Import Ascii String QArith.
From stdpp Require Import gmap strings list.

Set Warnings "-register-all".
Open Scope string_scope.
Open Scope list_scope.

(** ** Python values and exceptions *)

(** The values [json.loads] can produce.  An [int] and a [float] are kept
    apart as Python does; a float is the rational it denotes, the three
    non-finite floats that [json.loads] accepts are separate. *)
Inductive pyvalue : Type :=
  | PyNone
  | PyBool (b : bool)
  | PyInt (z : Z)
  | PyFloat (q : Q)
  | PyNaN
  | PyInf (negative : bool)
  | PyStr (s : string)
  | PyList (l : list pyvalue)
  | PyDict (d : gmap string pyvalue).

(** The exception classes the modelled code can meet; every one of them is
    a subclass of [Exception]. *)
Inductive exn : Type :=
  | APIError
  | JSONDecodeError
  | KeyError (key : string)
  | TypeError
  | ValueError
  | IndexError
  | AttributeError.

Inductive outcome (A : Type) : Type :=
  | Ok (a : A)
  | Raise (e : exn).
Arguments Ok {A} a.
Arguments Raise {A} e.

(** [bool(v)] *)
Definition truthy (v : pyvalue) : bool :=
  match v with
  | PyNone => false
  | PyBool b => b
  | PyInt z => negb (Z.eqb z 0)
  | PyFloat q => negb (Qeq_bool q 0)
  | PyNaN => true
  | PyInf _ => true
  | PyStr s => negb (String.eqb s EmptyString)
  | PyList l => match l with [] => false | _ :: _ => true end
  | PyDict d => match map_to_list d with [] => false | _ :: _ => true end
  end.

(** [v[key]] for a string key *)
Definition getitem (v : pyvalue) (key : string) : outcome pyvalue :=
  match v with
  | PyDict d =>
      match d !! key with
      | Some x => Ok x
      | None => Raise (KeyError key)
      end
  | _ => Raise TypeError
  end.

(** [v.get(key)]: only a dict has the method. *)
Definition get (v : pyvalue) (key : string) : outcome pyvalue :=
  match v with
  | PyDict d => Ok (default PyNone (d !! key))
  | _ => Raise AttributeError
  end.

(** [l[-n:]] on a list *)
Definition last_n {A} (n : nat) (l : list A) : list A :=
  drop (length l - n) l.

(** ** State and exceptions

    A computation reads and writes a state and ends with a value or with a
    raised exception; what it wrote before raising stays written. *)
Definition M (St A : Type) : Type := St → outcome A * St.

#[export] Instance M_ret {St} : MRet (M St) := λ A a s, (Ok a, s).

#[export] Instance M_bind {St} : MBind (M St) := λ A B f m s,
  match m s with
  | (Ok a, s') => f a s'
  | (Raise e, s') => (Raise e, s')
  end.

(** A pure step that may raise. *)
Definition liftR {St A} (r : outcome A) : M St A := λ s, (r, s).

(** [try: body  except Exception as e: handler e] *)
Definition try_except {St A} (body : M St A) (handler : exn → M St A) : M St A :=
  λ s, match body s with
       | (Ok a, s') => (Ok a, s')
       | (Raise e, s') => handler e s'
       end.

(** ** The OpenAI client

    [client.chat.completions.create(model=, messages=, temperature=,
    max_tokens=)].  A message is a dict with the keys [role] and [content];
    the content of a reply can be [None]. *)
Record Message : Type := mkMessage {
  role : string;
  content : option string
}.

Record Request : Type := mkRequest {
  model : string;
  messages : list Message;
  temperature : Q;
  max_tokens : Z
}.

(** What the program reads of a completion: the message content of each of
    its choices. *)
Record ChatCompletion : Type := mkChatCompletion {
  choices : list (option string)
}.

(** [response.choices[0].message.content] *)
Definition first_choice_content (response : ChatCompletion) : outcome (option string) :=
  match choices response with
  | c :: _ => Ok c
  | [] => Raise IndexError
  end.

Definition dq : string := String (Ascii.ascii_of_nat 34) EmptyString.

#[export] Instance Message_eq_dec : EqDecision Message.
Proof. solve_decision. Defined.

(** ** [chat.py]: data *)

(** [class SouthIndianLanguage(Enum)] *)
Inductive SouthIndianLanguage : Type :=
  | TAMIL
  | TELUGU
  | KANNADA
  | MALAYALAM
  | ENGLISH
  | MIXED.

#[export] Instance SouthIndianLanguage_eq_dec : EqDecision SouthIndianLanguage.
Proof. solve_decision. Defined.

#[export] Instance SouthIndianLanguage_countable : Countable SouthIndianLanguage.
Proof.
  refine (inj_countable'
    (λ l, match l with
          | TAMIL => 0%nat | TELUGU => 1%nat | KANNADA => 2%nat
          | MALAYALAM => 3%nat | ENGLISH => 4%nat | MIXED => 5%nat
          end)
    (λ n, match n with
          | 0%nat => TAMIL | 1%nat => TELUGU | 2%nat => KANNADA
          | 3%nat => MALAYALAM | 4%nat => ENGLISH | _ => MIXED
          end) _).
  by intros [].
Defined.

(** [member.value] *)
Definition value (l : SouthIndianLanguage) : string :=
  match l with
  | TAMIL => "tamil"
  | TELUGU => "telugu"
  | KANNADA => "kannada"
  | MALAYALAM => "malayalam"
  | ENGLISH => "english"
  | MIXED => "mixed"
  end.

Definition members : list SouthIndianLanguage :=
  [TAMIL; TELUGU; KANNADA; MALAYALAM; ENGLISH; MIXED].

(** [SouthIndianLanguage(v)]: the member whose value is [v], [ValueError]
    when there is none. *)
Definition SouthIndianLanguage_call (v : pyvalue) : outcome SouthIndianLanguage :=
  match v with
  | PyStr s =>
      match List.find (λ m, String.eqb (value m) s) members with
      | Some m => Ok m
      | None => Raise ValueError
      end
  | _ => Raise ValueError
  end.

(** [@dataclass LanguageDetectionResult].  The annotations [float] and
    [bool] are not enforced: the three last fields hold whatever the parsed
    reply held. *)
Record LanguageDetectionResult : Type := mkLanguageDetectionResult {
  primary_language : SouthIndianLanguage;
  secondary_language : option SouthIndianLanguage;
  confidence : pyvalue;
  is_code_mixed : pyvalue;
  mix_ratio : pyvalue
}.

(** [@dataclass ChatResponse] *)
Record ChatResponse : Type := mkChatResponse {
  response_text : option string;
  detected_language : LanguageDetectionResult;
  response_language : SouthIndianLanguage;
  processing_time : Q
}.

(** The state of a [CodeMixedChatBot] and of the world it talks to. *)
Record BotState (World : Type) : Type := mkBotState {
  conversation_history : list Message;
  world : World
}.
Arguments mkBotState {World} _ _.
Arguments conversation_history {World} _.
Arguments world {World} _.

(** ** [str] helpers *)

Definition is_ascii_lower (c : ascii) : bool :=
  let n := nat_of_ascii c in (97 <=? n)%nat && (n <=? 122)%nat.

Definition is_ascii_upper (c : ascii) : bool :=
  let n := nat_of_ascii c in (65 <=? n)%nat && (n <=? 90)%nat.

Definition ascii_upper (c : ascii) : ascii :=
  if is_ascii_lower c then ascii_of_nat (nat_of_ascii c - 32) else c.

Definition ascii_lower (c : ascii) : ascii :=
  if is_ascii_upper c then ascii_of_nat (nat_of_ascii c + 32) else c.

(** [s.title()] on ASCII text: the first letter of each run of letters in
    upper case, the others in lower case. *)
Fixpoint title_from (after_letter : bool) (s : string) : string :=
  match s with
  | EmptyString => EmptyString
  | String c rest =>
      if is_ascii_lower c || is_ascii_upper c
      then String (if after_letter then ascii_lower c else ascii_upper c)
                  (title_from true rest)
      else String c (title_from false rest)
  end.

Definition title (s : string) : string := title_from false s.

(** ** [CodeMixedLanguageDetector] *)

Definition detection_prompt (text : string) : string :=
  "
        Analyze the following text for language detection and code-mixing:
        
        Text: " +:+ dq +:+ text +:+ dq +:+ "
        
        Respond with ONLY a JSON object (no other text):
        {
            " +:+ dq +:+ "primary_language" +:+ dq +:+ ": " +:+ dq +:+ "tamil/telugu/kannada/malayalam/english" +:+ dq +:+ ",
            " +:+ dq +:+ "secondary_language" +:+ dq +:+ ": " +:+ dq +:+ "tamil/telugu/kannada/malayalam/english or null" +:+ dq +:+ ",
            " +:+ dq +:+ "confidence" +:+ dq +:+ ": 0.95,
            " +:+ dq +:+ "is_code_mixed" +:+ dq +:+ ": true/false,
            " +:+ dq +:+ "mix_ratio" +:+ dq +:+ ": 0.4,
            " +:+ dq +:+ "reasoning" +:+ dq +:+ ": " +:+ dq +:+ "brief explanation" +:+ dq +:+ "
        }
        
        Guidelines:
        - primary_language: The dominant language in the text
        - secondary_language: The secondary language if code-mixed, null if pure
        - confidence: How confident you are (0.0 to 1.0)
        - is_code_mixed: true if mixing multiple languages
        - mix_ratio: 0.0 = pure primary, 1.0 = pure secondary, 0.5 = equal mix
        ".

Definition detection_request (text : string) : Request :=
  {| model := "gpt-4o-mini";
     messages :=
       [ {| role := "system";
            content := Some "You are a South Indian language expert. Respond only with valid JSON." |};
         {| role := "user"; content := Some (detection_prompt text) |} ];
     temperature := 1 # 10;
     max_tokens := 200 |}.

(** The record of the [except] branch. *)
Definition fallback_detection : LanguageDetectionResult :=
  {| primary_language := ENGLISH;
     secondary_language := None;
     confidence := PyFloat (1 # 2);
     is_code_mixed := PyBool false;
     mix_ratio := PyFloat 0 |}.

#[export] Instance outcome_ret : MRet outcome := λ A a, Ok a.

#[export] Instance outcome_bind : MBind outcome := λ A B f r,
  match r with
  | Ok a => f a
  | Raise e => Raise e
  end.

(** The five keyword arguments of the constructor call, each as the
    expression the source evaluates, in the order it evaluates them. *)
Definition field_primary_language (result : pyvalue) : outcome SouthIndianLanguage :=
  v ← getitem result "primary_language"; SouthIndianLanguage_call v.

Definition field_secondary_language (result : pyvalue) : outcome (option SouthIndianLanguage) :=
  c ← get result "secondary_language";
  if truthy c
  then v ← getitem result "secondary_language";
       l ← SouthIndianLanguage_call v;
       mret (Some l)
  else mret None.

Definition field_confidence (result : pyvalue) : outcome pyvalue :=
  getitem result "confidence".

Definition field_is_code_mixed (result : pyvalue) : outcome pyvalue :=
  getitem result "is_code_mixed".

Definition field_mix_ratio (result : pyvalue) : outcome pyvalue :=
  getitem result "mix_ratio".

Definition build_detection (result : pyvalue) : outcome LanguageDetectionResult :=
  primary ← field_primary_language result;
  secondary ← field_secondary_language result;
  conf ← field_confidence result;
  mixed ← field_is_code_mixed result;
  ratio ← field_mix_ratio result;
  mret {| primary_language := primary;
          secondary_language := secondary;
          confidence := conf;
          is_code_mixed := mixed;
          mix_ratio := ratio |}.

(** ** [CodeMixedChatBot]: the system prompt *)

(** [self.cultural_context] *)
Definition cultural_context : gmap SouthIndianLanguage (gmap string string) :=
  {[ TAMIL :=
       {[ "greeting" := "Vanakkam";
          "culture" := "Tamil Nadu culture, Chennai references, Tamil cinema";
          "food" := "dosa, idli, sambar, rasam, Tamil cuisine" ]};
     TELUGU :=
       {[ "greeting" := "Namaskaram";
          "culture" := "Andhra/Telangana culture, Hyderabad references, Tollywood";
          "food" := "biryani, pesarattu, gongura, Telugu cuisine" ]};
     KANNADA :=
       {[ "greeting" := "Namaskara";
          "culture" := "Karnataka culture, Bangalore references, Sandalwood";
          "food" := "masala dosa, mysore pak, Kannada cuisine" ]};
     MALAYALAM :=
       {[ "greeting" := "Namaskaram";
          "culture" := "Kerala culture, backwaters, Malayalam cinema";
          "food" := "appam, fish curry, coconut, Kerala cuisine" ]} ]}.

(** [d.get(key, fallback)] *)
Definition get_or {K V} `{Countable K} (d : gmap K V) (key : K) (fallback : V) : V :=
  default fallback (d !! key).

(** The three prompt texts of [create_system_prompt], named. *)
Definition prompt_code_mixed (primary : SouthIndianLanguage) (context : gmap string string) : string :=
  "
            You are a friendly, culturally aware assistant who naturally speaks in code-mixed " +:+ value primary +:+ "-English, 
            just like urban South Indians do in daily conversation.
            
            Cultural Context:
            - Primary language: " +:+ title (value primary) +:+ "
            - Greeting style: " +:+ get_or context "greeting" "Hello" +:+ "
            - Cultural knowledge: " +:+ get_or context "culture" "General South Indian" +:+ "
            - Food references: " +:+ get_or context "food" "South Indian cuisine" +:+ "
            
            Response Style:
            - Mix " +:+ value primary +:+ " and English naturally (like the user did)
            - Use appropriate " +:+ value primary +:+ " greetings and expressions
            - Include cultural references when relevant
            - Keep responses conversational and warm
            - Match the user's code-mixing style and ratio
            - Use romanized " +:+ value primary +:+ " (English letters) for " +:+ value primary +:+ " words
            
            Examples of natural " +:+ value primary +:+ "-English mixing:
            - " +:+ dq +:+ "Vanakkam! How are you? Naan nalla irukken da!" +:+ dq +:+ "
            - " +:+ dq +:+ "Office work romba busy-aa irukku, but weekend plans ready!" +:+ dq +:+ "
            - " +:+ dq +:+ "Shall we go for lunch? Biriyani sapdalam!" +:+ dq +:+ "
            
            Remember: Be natural, friendly, and culturally appropriate!
            ".

Definition prompt_english : string :=
  "
                You are a friendly assistant. The user is speaking in English.
                Respond naturally in English, but feel free to use some South Indian 
                expressions if contextually appropriate.
                ".

Definition prompt_regional (primary : SouthIndianLanguage) : string :=
  "
                You are a friendly assistant. The user is speaking in " +:+ value primary +:+ ".
                Respond in a mix of " +:+ value primary +:+ " and English, as this is natural 
                for South Indian conversations. Use romanized " +:+ value primary +:+ ".
                ".

(** [CodeMixedChatBot.create_system_prompt] *)
Definition create_system_prompt (detected_lang : LanguageDetectionResult) : string :=
  let primary := primary_language detected_lang in
  let context := get_or cultural_context primary ∅ in
  if truthy (is_code_mixed detected_lang)
  then prompt_code_mixed primary context
  else
    if decide (primary = ENGLISH)
    then prompt_english
    else prompt_regional primary.

(** The reply text of the [except] branch of [generate_response]. *)
Definition generation_fallback_text : string :=
  "Sorry, I'm having trouble right now. Please try again!".

Section Chat.

Context {World : Type}.

(** [chat.completions.create]: raises or returns a completion, and may
    change the world in either case. *)
Variable create : Request → M World ChatCompletion.

(** [json.loads] on a [str]: [None] stands for [JSONDecodeError]. *)
Variable json_loads : string → option pyvalue.

(** [time.time()] *)
Variable time_time : World → Q * World.

(** [json.loads(content)]; a content of [None] is a [TypeError]. *)
Definition loads (c : option string) : outcome pyvalue :=
  match c with
  | None => Raise TypeError
  | Some s =>
      match json_loads s with
      | Some v => Ok v
      | None => Raise JSONDecodeError
      end
  end.

(** The body of the [try] of [detect_language]. *)
Definition detect_language_try (text : string) : M World LanguageDetectionResult :=
  response ← create (detection_request text);
  c ← liftR (first_choice_content response);
  result ← liftR (loads c);
  liftR (build_detection result).

(** [CodeMixedLanguageDetector.detect_language]; the warning it prints in
    the handler is console output, which is not modelled. *)
Definition detect_language (text : string) : M World LanguageDetectionResult :=
  try_except (detect_language_try text) (λ _, mret fallback_detection).

(** ** [CodeMixedChatBot]: the session *)

(** A detector or client call made from the bot: it acts on the world and
    leaves the history alone. *)
Definition in_world {A} (m : M World A) : M (BotState World) A :=
  λ s, let '(r, w) := m (world s) in
       (r, {| conversation_history := conversation_history s; world := w |}).

Definition clock : M (BotState World) Q :=
  λ s, let '(t, w) := time_time (world s) in
       (Ok t, {| conversation_history := conversation_history s; world := w |}).

(** [self.conversation_history.append(m)] *)
Definition history_append (m : Message) : M (BotState World) unit :=
  λ s, (Ok tt, {| conversation_history := conversation_history s ++ [m];
                  world := world s |}).

(** [self.conversation_history[-10:]] *)
Definition recent : M (BotState World) (list Message) :=
  λ s, (Ok (last_n 10 (conversation_history s)), s).

Definition generation_request (system_prompt : string) (recent_history : list Message) : Request :=
  {| model := "gpt-4o-mini";
     messages := [ {| role := "system"; content := Some system_prompt |} ] ++ recent_history;
     temperature := 7 # 10;
     max_tokens := 300 |}.

(** The body of the [try] of [generate_response]. *)
Definition generate_response_try (start_time : Q) (detected_lang : LanguageDetectionResult)
    (system_prompt : string) (recent_history : list Message) : M (BotState World) ChatResponse :=
  response ← in_world (create (generation_request system_prompt recent_history));
  text ← liftR (first_choice_content response);
  history_append {| role := "assistant"; content := text |};;
  now ← clock;
  mret {| response_text := text;
          detected_language := detected_lang;
          response_language := primary_language detected_lang;
          processing_time := now - start_time |}.

(** The [except] branch of [generate_response]. *)
Definition generate_response_except (start_time : Q) (detected_lang : LanguageDetectionResult)
    : M (BotState World) ChatResponse :=
  now ← clock;
  mret {| response_text := Some generation_fallback_text;
          detected_language := detected_lang;
          response_language := ENGLISH;
          processing_time := now - start_time |}.

(** [CodeMixedChatBot.generate_response] *)
Definition generate_response (user_input : string) : M (BotState World) ChatResponse :=
  start_time ← clock;
  detected_lang ← in_world (detect_language user_input);
  let system_prompt := create_system_prompt detected_lang in
  history_append {| role := "user"; content := Some user_input |};;
  recent_history ← recent;
  try_except
    (generate_response_try start_time detected_lang system_prompt recent_history)
    (λ _, generate_response_except start_time detected_lang).

End Chat.

(** ** [str.replace] and [str.strip]

    A [str] is held as its UTF-8 bytes. *)

Fixpoint intersperse (new s : string) : string :=
  match s with
  | EmptyString => new
  | String c rest => new +:+ String c (intersperse new rest)
  end.

(** Left to right, without overlap; [skip] counts the bytes of a match that
    are still to be passed over. *)
Fixpoint replace_from (skip : nat) (old new s : string) : string :=
  match s with
  | EmptyString => EmptyString
  | String c rest =>
      match skip with
      | S k => replace_from k old new rest
      | O =>
          if String.prefix old s
          then new +:+ replace_from (String.length old - 1) old new rest
          else String c (replace_from 0 old new rest)
      end
  end.

(** [s.replace(old, new)] *)
Definition str_replace (s old new : string) : string :=
  match old with
  | EmptyString => intersperse new s
  | String _ _ => replace_from 0 old new s
  end.

(** The characters for which [str.isspace] holds, by the length of their
    encoding: U+0009..U+000D, U+001C..U+0020; U+0085, U+00A0; U+1680,
    U+2000..U+200A, U+2028, U+2029, U+202F, U+205F, U+3000. *)
Definition is_space1 (c : ascii) : bool :=
  let n := nat_of_ascii c in
  ((9 <=? n)%nat && (n <=? 13)%nat) || ((28 <=? n)%nat && (n <=? 32)%nat).

Definition is_space2 (c1 c2 : ascii) : bool :=
  let n1 := nat_of_ascii c1 in
  let n2 := nat_of_ascii c2 in
  (n1 =? 194)%nat && ((n2 =? 133)%nat || (n2 =? 160)%nat).

Definition is_space3 (c1 c2 c3 : ascii) : bool :=
  let n1 := nat_of_ascii c1 in
  let n2 := nat_of_ascii c2 in
  let n3 := nat_of_ascii c3 in
  ((n1 =? 225)%nat && (n2 =? 154)%nat && (n3 =? 128)%nat)
  || ((n1 =? 226)%nat && (n2 =? 128)%nat
      && (((128 <=? n3)%nat && (n3 <=? 138)%nat)
          || (n3 =? 168)%nat || (n3 =? 169)%nat || (n3 =? 175)%nat))
  || ((n1 =? 226)%nat && (n2 =? 129)%nat && (n3 =? 159)%nat)
  || ((n1 =? 227)%nat && (n2 =? 128)%nat && (n3 =? 128)%nat).

(** Drop the leading whitespace; with [backwards] the bytes of [s] come last
    byte first, as they do in a reversed string. *)
Fixpoint drop_space (backwards : bool) (s : string) : string :=
  match s with
  | EmptyString => s
  | String c1 rest1 =>
      if is_space1 c1 then drop_space backwards rest1
      else
        match rest1 with
        | EmptyString => s
        | String c2 rest2 =>
            if (if backwards then is_space2 c2 c1 else is_space2 c1 c2)
            then drop_space backwards rest2
            else
              match rest2 with
              | EmptyString => s
              | String c3 rest3 =>
                  if (if backwards then is_space3 c3 c2 c1 else is_space3 c1 c2 c3)
                  then drop_space backwards rest3
                  else s
              end
        end
  end.

(** [s.strip()] *)
Definition str_strip (s : string) : string :=
  String.rev (drop_space true (String.rev (drop_space false s))).

(** ** [tts.py]: the enhancement pass *)

Module TTS.

(** [class SouthIndianLanguage(Enum)] of [tts.py]; it has no [ENGLISH]. *)
Inductive SouthIndianLanguage : Type :=
  | TAMIL
  | TELUGU
  | KANNADA
  | MALAYALAM
  | MIXED.

Definition value (l : SouthIndianLanguage) : string :=
  match l with
  | TAMIL => "tamil"
  | TELUGU => "telugu"
  | KANNADA => "kannada"
  | MALAYALAM => "malayalam"
  | MIXED => "mixed"
  end.

(** [@dataclass CodeMixedPhrase] *)
Record CodeMixedPhrase : Type := mkCodeMixedPhrase {
  text : string;
  primary_language : SouthIndianLanguage;
  secondary_language : option SouthIndianLanguage;
  mix_ratio : Q;
  description : string
}.

Definition enhancement_prompt (phrase : CodeMixedPhrase) : string :=
  "
        Convert this code-mixed " +:+ value (primary_language phrase) +:+ " text to be more TTS-friendly while preserving the natural code-mixing:
        
        Original: " +:+ dq +:+ text phrase +:+ dq +:+ "
        
        Instructions:
        1. Keep the natural code-mixing as is
        2. Add phonetic hints for non-English words in parentheses if needed
        3. Adjust spelling of regional words to help English TTS pronounce better
        4. Keep the conversational tone intact
        5. Don't over-modify - maintain authenticity
        
        Enhanced text for TTS:
        ".

Definition enhancement_request (phrase : CodeMixedPhrase) : Request :=
  {| model := "gpt-4o-mini";
     messages :=
       [ {| role := "system";
            content := Some "You are a linguistic expert in South Indian languages and code-mixing. Help optimize text for TTS while preserving natural speech patterns." |};
         {| role := "user"; content := Some (enhancement_prompt phrase) |} ];
     temperature := 3 # 10;
     max_tokens := 200 |}.

(** [content.strip()]; [None] has no such method. *)
Definition content_strip (c : option string) : outcome string :=
  match c with
  | Some s => Ok (str_strip s)
  | None => Raise AttributeError
  end.

Section Enhance.

Context {World : Type}.
Variable create : Request → M World ChatCompletion.

(** The body of the [try] of [enhance_text_for_tts]. *)
Definition enhance_text_for_tts_try (phrase : CodeMixedPhrase) : M World string :=
  response ← create (enhancement_request phrase);
  c ← liftR (first_choice_content response);
  enhanced_text ← liftR (content_strip c);
  let enhanced_text :=
    str_strip (str_replace (str_replace enhanced_text dq EmptyString)
                           "Enhanced text for TTS:" EmptyString) in
  mret enhanced_text.

(** [CodeMixedTTS.enhance_text_for_tts]; the warning of the handler is
    console output, which is not modelled. *)
Definition enhance_text_for_tts (phrase : CodeMixedPhrase) : M World string :=
  try_except (enhance_text_for_tts_try phrase) (λ _, mret (text phrase)).

End Enhance.

#[global] Instance SouthIndianLanguage_eq_dec : EqDecision SouthIndianLanguage.
Proof. solve_decision. Defined.

#[global] Instance SouthIndianLanguage_countable : Countable SouthIndianLanguage.
Proof.
  refine (inj_countable'
    (λ l, match l with
          | TAMIL => 0%nat | TELUGU => 1%nat | KANNADA => 2%nat
          | MALAYALAM => 3%nat | MIXED => 4%nat
          end)
    (λ n, match n with
          | 0%nat => TAMIL | 1%nat => TELUGU | 2%nat => KANNADA
          | 3%nat => MALAYALAM | _ => MIXED
          end) _).
  by intros [].
Defined.

(** [class TTSVoice(Enum)] *)
Inductive TTSVoice : Type :=
  | ALLOY
  | ECHO
  | FABLE
  | ONYX
  | NOVA
  | SHIMMER.

Definition voice_value (v : TTSVoice) : string :=
  match v with
  | ALLOY => "alloy"
  | ECHO => "echo"
  | FABLE => "fable"
  | ONYX => "onyx"
  | NOVA => "nova"
  | SHIMMER => "shimmer"
  end.

(** [CodeMixedGenerator.sample_phrases]; a mix ratio is the decimal of its
    literal. *)
Definition sample_phrases : gmap SouthIndianLanguage (list CodeMixedPhrase) :=
  {[
     TAMIL :=
       [
         {| text := "Vanakkam anna! How are you? Naan nalla irukken, thanks for asking.";
            primary_language := TAMIL;
            secondary_language := None;
            mix_ratio := 2 # 5;
            description := "Tamil greeting with English conversation" |};
         {| text := "Office-la meeting irukku, but naan late-aa vandhuruven. Sorry";
            primary_language := TAMIL;
            secondary_language := None;
            mix_ratio := 3 # 5;
            description := "Tamil-English work context" |};
         {| text := "Enna bro, weekend plans edhuvum irukka? Let's go for a movie.";
            primary_language := TAMIL;
            secondary_language := None;
            mix_ratio := 1 # 2;
            description := "Casual Tamil-English mixing" |};
         {| text := "Coffee kudikkalam-aa? I'm feeling very tired today.";
            primary_language := TAMIL;
            secondary_language := None;
            mix_ratio := 2 # 5;
            description := "Tamil suggestion with English explanation" |} ];
     TELUGU :=
       [
         {| text := "Namaskaram! How are you doing? Nenu bagane unnaanu, thank you.";
            primary_language := TELUGU;
            secondary_language := None;
            mix_ratio := 2 # 5;
            description := "Telugu greeting with English" |};
         {| text := "Office work chaala busy ga undi. But weekend-lo relax cheyaali.";
            primary_language := TELUGU;
            secondary_language := None;
            mix_ratio := 3 # 5;
            description := "Telugu-English work talk" |};
         {| text := "Biryani thindam raa! I'm very hungry, chala rojula nundi waiting.";
            primary_language := TELUGU;
            secondary_language := None;
            mix_ratio := 1 # 2;
            description := "Food context mixing" |};
         {| text := "Movie ekkada chudaali? Let's book tickets online, convenient ga untundi.";
            primary_language := TELUGU;
            secondary_language := None;
            mix_ratio := 1 # 2;
            description := "Entertainment planning" |} ];
     KANNADA :=
       [
         {| text := "Namaskara guru! How are you? Naanu chennagi iddene, thanks for asking.";
            primary_language := KANNADA;
            secondary_language := None;
            mix_ratio := 2 # 5;
            description := "Kannada greeting with English" |};
         {| text := "Traffic jaasti aagtide. I'll be late for the meeting, sorry guru.";
            primary_language := KANNADA;
            secondary_language := None;
            mix_ratio := 1 # 2;
            description := "Traffic situation mixing" |};
         {| text := "Masala dosa thinbekku anstide. Let's go to that new restaurant.";
            primary_language := KANNADA;
            secondary_language := None;
            mix_ratio := 2 # 5;
            description := "Food craving expression" |};
         {| text := "Weekend plans yenu guru? I want to go to Mysore, scenic aagide.";
            primary_language := KANNADA;
            secondary_language := None;
            mix_ratio := 1 # 2;
            description := "Weekend planning" |} ];
     MALAYALAM :=
       [
         {| text := "Namaskaram machane! How are you? Njaan nannaayi und, thanks.";
            primary_language := MALAYALAM;
            secondary_language := None;
            mix_ratio := 2 # 5;
            description := "Malayalam greeting with English" |};
         {| text := "Monsoon kaaranam rain jaasti und. But I love this weather, romantic aanu.";
            primary_language := MALAYALAM;
            secondary_language := None;
            mix_ratio := 1 # 2;
            description := "Weather talk mixing" |};
         {| text := "Fish curry kazhikkanamennu thonnunnu. Let's go to that coastal restaurant.";
            primary_language := MALAYALAM;
            secondary_language := None;
            mix_ratio := 2 # 5;
            description := "Food preference" |};
         {| text := "Backwaters-il boat ride cheyyaam. I heard it's very peaceful there.";
            primary_language := MALAYALAM;
            secondary_language := None;
            mix_ratio := 1 # 2;
            description := "Tourism activity" |} ] ]}.

(** [CodeMixedGenerator.get_phrases] *)
Definition get_phrases (language : SouthIndianLanguage) : list CodeMixedPhrase :=
  get_or sample_phrases language [].

(** [CodeMixedGenerator.generate_custom_phrase] *)
Definition generate_custom_phrase (base_text : string) (language : SouthIndianLanguage)
    : CodeMixedPhrase :=
  {| text := base_text;
     primary_language := language;
     secondary_language := None;
     mix_ratio := 3 # 10;
     description := "Custom user input" |}.

(** [client.audio.speech.create(model=, voice=, input=, speed=)] *)
Record SpeechRequest : Type := mkSpeechRequest {
  speech_model : string;
  voice : string;
  input : string;
  speed : Q
}.

Definition speech_request (text_to_speak : string) (v : TTSVoice) : SpeechRequest :=
  {| speech_model := "tts-1-hd";
     voice := voice_value v;
     input := text_to_speak;
     speed := 9 # 10 |}.

Section Speech.

Context {World : Type}.
Variable create : Request → M World ChatCompletion.

(** The speech service returns the bytes of the audio, [response.content]. *)
Variable speech_create : SpeechRequest → M World (list Byte.byte).

(** [tempfile.NamedTemporaryFile(delete=False, suffix=)] gives a file, known
    by its name; [write] and [close] act on it.  Each may raise. *)
Variable named_temporary_file : string → M World string.
Variable file_write : string → list Byte.byte → M World unit.
Variable file_close : string → M World unit.

(** The body of the [try] of [generate_speech]. *)
Definition generate_speech_try (text_to_speak : string) (v : TTSVoice) : M World (option string) :=
  response ← speech_create (speech_request text_to_speak v);
  temp_file ← named_temporary_file ".mp3";
  file_write temp_file response;;
  file_close temp_file;;
  mret (Some temp_file).

(** [CodeMixedTTS.generate_speech]; what it prints is not modelled. *)
Definition generate_speech (phrase : CodeMixedPhrase) (v : TTSVoice) (enhance : bool)
    : M World (option string) :=
  text_to_speak ← (if enhance
                   then enhance_text_for_tts create phrase
                   else mret (text phrase));
  try_except (generate_speech_try text_to_speak v) (λ _, mret None).

End Speech.

End TTS.

(** ** [stt.py]: the language detector on audio *)

Module STT.

(** [@dataclass LanguageDetectionResult] of [stt.py]; the detected language
    and the confidence are whatever the analysis held. *)
Record LanguageDetectionResult : Type := mkLanguageDetectionResult {
  detected_language : pyvalue;
  confidence : pyvalue;
  transcription : string;
  processing_time : Q;
  raw_response : gmap string pyvalue
}.

(** What the program reads of the reply of the transcription service: its
    text, its language and its [model_dump()]. *)
Record Transcription : Type := mkTranscription {
  text : string;
  language : option string;
  model_dump : pyvalue
}.

(** [client.audio.transcriptions.create(model=, file=, response_format=,
    language=)] *)
Record TranscriptionRequest (File : Type) : Type := mkTranscriptionRequest {
  transcription_model : string;
  file : File;
  response_format : string;
  request_language : option string
}.
Arguments mkTranscriptionRequest {File} _ _ _ _.

(** [x or fallback] for an optional string *)
Definition str_or (x : option string) (fallback : string) : string :=
  match x with
  | Some (String c rest) => String c rest
  | _ => fallback
  end.

Definition analysis_prompt (transcription_response : Transcription) : string :=
  "
            Analyze the following transcribed text and provide detailed language detection:
            
            Text: " +:+ dq +:+ text transcription_response +:+ dq +:+ "
            
            Please respond with a JSON object containing:
            {
                " +:+ dq +:+ "primary_language" +:+ dq +:+ ": " +:+ dq +:+ "language name" +:+ dq +:+ ",
                " +:+ dq +:+ "language_code" +:+ dq +:+ ": " +:+ dq +:+ "ISO 639-1 code" +:+ dq +:+ ", 
                " +:+ dq +:+ "confidence" +:+ dq +:+ ": 0.95,
                " +:+ dq +:+ "is_code_mixed" +:+ dq +:+ ": false,
                " +:+ dq +:+ "secondary_languages" +:+ dq +:+ ": [],
                " +:+ dq +:+ "script_type" +:+ dq +:+ ": " +:+ dq +:+ "latin/devanagari/tamil/etc" +:+ dq +:+ ",
                " +:+ dq +:+ "region_dialect" +:+ dq +:+ ": " +:+ dq +:+ "if detectable" +:+ dq +:+ ",
                " +:+ dq +:+ "reasoning" +:+ dq +:+ ": " +:+ dq +:+ "brief explanation" +:+ dq +:+ "
            }
            
            Supported languages include: English, Hindi, Tamil, Telugu, Kannada, Malayalam, Bengali, Gujarati, Marathi, Punjabi, and others.
            ".

Definition analysis_request (transcription_response : Transcription) : Request :=
  {| model := "gpt-4o-mini";
     messages :=
       [ {| role := "system";
            content := Some "You are a language detection expert. Respond only with valid JSON." |};
         {| role := "user"; content := Some (analysis_prompt transcription_response) |} ];
     temperature := 1 # 10;
     max_tokens := 300 |}.

(** The analysis of the handler of [json.JSONDecodeError]. *)
Definition fallback_analysis (transcription_response : Transcription) : pyvalue :=
  PyDict {[ "primary_language" := PyStr (str_or (language transcription_response) "unknown");
            "language_code" := PyStr (str_or (language transcription_response) "unk");
            "confidence" := PyFloat (7 # 10);
            "is_code_mixed" := PyBool false;
            "secondary_languages" := PyList [];
            "script_type" := PyStr "unknown";
            "region_dialect" := PyStr "unknown";
            "reasoning" := PyStr "Fallback due to JSON parsing error" ]}.

(** [try: body  except json.JSONDecodeError: handler] *)
Definition except_JSONDecodeError {St A} (body handler : M St A) : M St A :=
  λ s, match body s with
       | (Raise JSONDecodeError, s') => handler s'
       | r => r
       end.

Section Detector.

Context {World File : Type}.
Variable create : Request → M World ChatCompletion.
Variable json_loads : string → option pyvalue.
Variable time_time : World → Q * World.

(** [open(path, 'rb')] and the closing of the file when the [with] block is
    left. *)
Variable open_rb : string → M World File.
Variable close : File → World → World.
Variable transcriptions_create : TranscriptionRequest File → M World Transcription.

(** [str(e)] *)
Variable exn_str : exn → string.

Definition now : M World Q := λ w, let '(t, w') := time_time w in (Ok t, w').

(** [with open(path, 'rb') as audio_file: body]: the file is closed whether
    the body returns or raises. *)
Definition with_open {A} (path : string) (body : File → M World A) : M World A :=
  audio_file ← open_rb path;
  λ w, let '(r, w') := body audio_file w in (r, close audio_file w').

(** The body of the outer [try] of [detect_language]. *)
Definition detect_language_try (start_time : Q) (audio_file_path : string)
    : M World LanguageDetectionResult :=
  transcription_response ←
    with_open audio_file_path (λ audio_file,
      transcriptions_create
        {| transcription_model := "whisper-1";
           file := audio_file;
           response_format := "verbose_json";
           request_language := None |});
  gpt_response ← create (analysis_request transcription_response);
  analysis ←
    except_JSONDecodeError
      (c ← liftR (first_choice_content gpt_response); liftR (loads json_loads c))
      (mret (fallback_analysis transcription_response));
  end_time ← now;
  primary ← liftR (getitem analysis "primary_language");
  conf ← liftR (getitem analysis "confidence");
  mret {| detected_language := primary;
          confidence := conf;
          transcription := text transcription_response;
          processing_time := end_time - start_time;
          raw_response :=
            {[ "whisper_response" := model_dump transcription_response;
               "gpt_analysis" := analysis ]} |}.

(** The handler of the outer [try]. *)
Definition detect_language_except (start_time : Q) (e : exn) : M World LanguageDetectionResult :=
  end_time ← now;
  mret {| detected_language := PyStr "error";
          confidence := PyFloat 0;
          transcription := EmptyString;
          processing_time := end_time - start_time;
          raw_response := {[ "error" := PyStr (exn_str e) ]} |}.

(** [LanguageDetector.detect_language]; what it prints is not modelled. *)
Definition detect_language (audio_file_path : string) : M World LanguageDetectionResult :=
  start_time ← now;
  try_except (detect_language_try start_time audio_file_path)
             (detect_language_except start_time).

End Detector.

End STT.

(** ** Vocabulary of the properties *)







(** The three branches of the policy builder, as the specification lists
    them, and the choice among them from the pair it names. *)
Inductive Branch : Type :=
  | BlendCodeMixed
  | PlainEnglish
  | BlendRegional.

#[export] Instance Branch_eq_dec : EqDecision Branch.
Proof. solve_decision. Defined.



(** A capability that answers every request with one fixed text, and a
    [json.loads] known on one document only; they give the concrete runs. *)
Definition reply_with (c : option string) : Request → M unit ChatCompletion :=
  λ _ w, (Ok {| choices := [c] |}, w).

Definition always_failing : Request → M unit ChatCompletion :=
  λ _ w, (Raise APIError, w).

Definition loads_document (doc : string) (v : pyvalue) : string → option pyvalue :=
  λ s, if String.eqb s doc then Some v else None.

Definition json_member (key rendered : string) : string :=
  dq +:+ key +:+ dq +:+ ": " +:+ rendered.

Definition json_string (s : string) : string := dq +:+ s +:+ dq.

Definition json_object (members : list string) : string :=
  "{" +:+ String.concat ", " members +:+ "}".





(** A consistent reply without the key [secondary_language]. *)
Definition plain_doc : string :=
  json_object
    [ json_member "primary_language" (json_string "telugu");
      json_member "confidence" "0.5";
      json_member "is_code_mixed" "false";
      json_member "mix_ratio" "0.0" ].

Definition plain_value : pyvalue :=
  PyDict {[ "primary_language" := PyStr "telugu";
            "confidence" := PyFloat (1 # 2);
            "is_code_mixed" := PyBool false;
            "mix_ratio" := PyFloat 0 ]}.

(** A reply without the key [confidence]. *)
Definition no_confidence_doc : string :=
  json_object
    [ json_member "primary_language" (json_string "telugu");
      json_member "is_code_mixed" "false";
      json_member "mix_ratio" "0.0" ].

Definition no_confidence_value : pyvalue :=
  PyDict {[ "primary_language" := PyStr "telugu";
            "is_code_mixed" := PyBool false;
            "mix_ratio" := PyFloat 0 ]}.

Definition frozen_clock : unit → Q * unit := λ w, (0%Q, w).

(** The directive for a record that is code-mixed or not and has the given
    primary language; the other fields are not read. *)
Definition prompt_for (code_mixed : bool) (primary : SouthIndianLanguage) : string :=
  create_system_prompt
    {| primary_language := primary;
       secondary_language := None;
       confidence := PyNone;
       is_code_mixed := PyBool code_mixed;
       mix_ratio := PyNone |}.


(** A phrase of the sample table of [tts.py]. *)
Definition coffee_phrase : TTS.CodeMixedPhrase :=
  {| TTS.text := "Coffee kudikkalam-aa? I'm feeling very tired today.";
     TTS.primary_language := TTS.TAMIL;
     TTS.secondary_language := None;
     TTS.mix_ratio := 2 # 5;
     TTS.description := "Tamil suggestion with English explanation" |}.

Section DetectionVocabulary.

Context {World : Type}.
Variable create : Request → M World ChatCompletion.
Variable json_loads : string → option pyvalue.

(** What the [try] of [detect_language] makes of the outcome of its call. *)
Definition parse_reply (o : outcome ChatCompletion) : outcome pyvalue :=
  response ← o; c ← first_choice_content response; loads json_loads c.

Definition detection_of (o : outcome ChatCompletion) : LanguageDetectionResult :=
  match parse_reply o ≫= build_detection with
  | Ok d => d
  | Raise _ => fallback_detection
  end.

(** The value [json.loads] returns in the call on [text] from world [w],
    when the call gets that far. *)
Definition parsed_reply (text : string) (w : World) : option pyvalue :=
  match parse_reply (fst (create (detection_request text) w)) with
  | Ok v => Some v
  | Raise _ => None
  end.

(** One of the five field expressions raises. *)
Definition field_fails (v : pyvalue) : Prop :=
  (∃ e, field_primary_language v = Raise e)
  ∨ (∃ e, field_secondary_language v = Raise e)
  ∨ (∃ e, field_confidence v = Raise e)
  ∨ (∃ e, field_is_code_mixed v = Raise e)
  ∨ (∃ e, field_mix_ratio v = Raise e).

(** The three ways the detection of [text] from world [w] can fail. *)
Inductive detection_failure (text : string) (w : World) : Prop :=
  | transport_failure e :
      fst (create (detection_request text) w) = Raise e →
      detection_failure text w
  | unparseable_output response e :
      fst (create (detection_request text) w) = Ok response →
      (c ← first_choice_content response; loads json_loads c) = Raise e →
      detection_failure text w
  | invalid_field v :
      parsed_reply text w = Some v →
      field_fails v →
      detection_failure text w.

End DetectionVocabulary.

Definition user_turn (user_input : string) : Message :=
  {| role := "user"; content := Some user_input |}.

Definition assistant_turn (reply : option string) : Message :=
  {| role := "assistant"; content := reply |}.

Definition system_message (directive : string) : Message :=
  {| role := "system"; content := Some directive |}.

Section SessionVocabulary.

Context {World : Type}.
Variable create : Request → M World ChatCompletion.
Variable json_loads : string → option pyvalue.
Variable time_time : World → Q * World.

(** The stages of one call of [generate_response] on [user_input] from the
    state [s]: the world in which the detection runs, the record it
    yields, the world it leaves, the request of the generation step and
    the outcome of that step. *)
Definition world_at_detection (s : BotState World) : World :=
  snd (time_time (world s)).

Definition detected (user_input : string) (s : BotState World) : LanguageDetectionResult :=
  detection_of json_loads
    (fst (create (detection_request user_input) (world_at_detection s))).

Definition world_at_generation (user_input : string) (s : BotState World) : World :=
  snd (create (detection_request user_input) (world_at_detection s)).

Definition generation_request_of (user_input : string) (s : BotState World) : Request :=
  generation_request (create_system_prompt (detected user_input s))
    (last_n 10 (conversation_history s ++ [user_turn user_input])).

Definition generation_step (user_input : string) (s : BotState World) : outcome (option string) :=
  response ← fst (create (generation_request_of user_input s)
                         (world_at_generation user_input s));
  first_choice_content response.

(** The state after a series of calls, and the condition that the generation
    step of each of them succeeds. *)
Fixpoint converse (inputs : list string) (s : BotState World) : BotState World :=
  match inputs with
  | [] => s
  | user_input :: rest =>
      converse rest (snd (generate_response create json_loads time_time user_input s))
  end.

Fixpoint all_generated (inputs : list string) (s : BotState World) : Prop :=
  match inputs with
  | [] => True
  | user_input :: rest =>
      (∃ reply, generation_step user_input s = Ok reply)
      ∧ all_generated rest (snd (generate_response create json_loads time_time user_input s))
  end.

(** The capability and the clock over a world that also keeps the list of
    the requests made so far. *)
Definition logged : Request → M (list Request * World) ChatCompletion :=
  λ req lw, let '(r, w) := create req (snd lw) in (r, (fst lw ++ [req], w)).

Definition logged_clock : list Request * World → Q * (list Request * World) :=
  λ lw, let '(t, w) := time_time (snd lw) in (t, (fst lw, w)).

End SessionVocabulary.

(** A capability that fails on the requests whose system message is not the
    one of the detector, that is on the generation step only. *)
Definition detection_only (c : option string) : Request → M unit ChatCompletion :=
  λ req w,
    match messages req with
    | m :: _ =>
        if bool_decide (content m = Some "You are a South Indian language expert. Respond only with valid JSON.")
        then (Ok {| choices := [c] |}, w)
        else (Raise APIError, w)
    | [] => (Raise APIError, w)
    end.

(** The record that a parsed JSON object describes: the language names are
    values of enumeration members, a secondary language that is not named
    is falsy, and the three other keys are present. *)
Definition reply_describes (m : gmap string pyvalue) (d : LanguageDetectionResult) : Prop :=
  m !! "primary_language" = Some (PyStr (value (primary_language d)))
  ∧ match secondary_language d with
    | Some l => m !! "secondary_language" = Some (PyStr (value l))
    | None => truthy (default PyNone (m !! "secondary_language")) = false
    end
  ∧ m !! "confidence" = Some (confidence d)
  ∧ m !! "is_code_mixed" = Some (is_code_mixed d)
  ∧ m !! "mix_ratio" = Some (mix_ratio d).

(** Two objects with the same five fields. *)
Definition same_fields (m m' : gmap string pyvalue) : Prop :=
  m !! "primary_language" = m' !! "primary_language"
  ∧ m !! "secondary_language" = m' !! "secondary_language"
  ∧ m !! "confidence" = m' !! "confidence"
  ∧ m !! "is_code_mixed" = m' !! "is_code_mixed"
  ∧ m !! "mix_ratio" = m' !! "mix_ratio".

(** [sub in s] *)
Fixpoint contains (sub s : string) : bool :=
  String.prefix sub s
  || match s with
     | EmptyString => false
     | String _ rest => contains sub rest
     end.

Definition is_turn (m : Message) : Prop :=
  role m = "user" ∨ role m = "assistant".

(** A capability whose reply depends on the world, a boolean, and leaves
    it as it is; and a [json.loads] known on the documents of a table. *)
Definition reply_by_world (c1 c2 : option string) : Request → M bool ChatCompletion :=
  λ _ w, (Ok {| choices := [if w then c1 else c2] |}, w).

Definition loads_table (table : list (string * pyvalue)) : string → option pyvalue :=
  λ s, snd <$> List.find (λ entry, String.eqb s (fst entry)) table.

(** A consistent code-mixed reply, with and without a [reasoning]. *)
Definition mixed_doc : string :=
  json_object
    [ json_member "primary_language" (json_string "tamil");
      json_member "secondary_language" (json_string "english");
      json_member "confidence" "0.75";
      json_member "is_code_mixed" "true";
      json_member "mix_ratio" "0.5" ].

Definition mixed_value : pyvalue :=
  PyDict {[ "primary_language" := PyStr "tamil";
            "secondary_language" := PyStr "english";
            "confidence" := PyFloat (3 # 4);
            "is_code_mixed" := PyBool true;
            "mix_ratio" := PyFloat (1 # 2) ]}.

Definition mixed_reasoned_doc : string :=
  json_object
    [ json_member "primary_language" (json_string "tamil");
      json_member "secondary_language" (json_string "english");
      json_member "confidence" "0.75";
      json_member "is_code_mixed" "true";
      json_member "mix_ratio" "0.5";
      json_member "reasoning" (json_string "Tamil words in an English frame") ].

Definition mixed_reasoned_value : pyvalue :=
  PyDict {[ "primary_language" := PyStr "tamil";
            "secondary_language" := PyStr "english";
            "confidence" := PyFloat (3 # 4);
            "is_code_mixed" := PyBool true;
            "mix_ratio" := PyFloat (1 # 2);
            "reasoning" := PyStr "Tamil words in an English frame" ]}.

(** [c in s] for a single byte *)
Fixpoint occurs (c : ascii) (s : string) : bool :=
  match s with
  | EmptyString => false
  | String c' rest => Ascii.eqb c c' || occurs c rest
  end.

Definition quote_char : ascii := Ascii.ascii_of_nat 34.

(** The phrase of the sample table is valid: declared for the language it
    is listed under, without a secondary language, with a ratio between 0
    and 1 and a text. *)
Definition phrase_listed_for (l : TTS.SouthIndianLanguage) (p : TTS.CodeMixedPhrase) : bool :=
  bool_decide (TTS.primary_language p = l)
  && bool_decide (TTS.secondary_language p = None)
  && Qle_bool 0 (TTS.mix_ratio p) && Qle_bool (TTS.mix_ratio p) 1
  && negb (String.eqb (TTS.text p) EmptyString).

(** Parts of the world of the concrete runs of the speech pipeline. *)
Definition silent_speech : TTS.SpeechRequest → M unit (list Byte.byte) :=
  λ _ w, (Ok [], w).

Definition failing_speech : TTS.SpeechRequest → M unit (list Byte.byte) :=
  λ _ w, (Raise APIError, w).

Definition temp_named (name : string) : string → M unit string :=
  λ suffix w, (Ok (name +:+ suffix), w).

Definition file_ok : string → M unit unit := λ _ w, (Ok tt, w).

Definition write_ok : string → list Byte.byte → M unit unit := λ _ _ w, (Ok tt, w).

Section STTVocabulary.

Context {World File : Type}.
Variable create : Request → M World ChatCompletion.
Variable json_loads : string → option pyvalue.
Variable time_time : World → Q * World.
Variable open_rb : string → M World File.
Variable close : File → World → World.
Variable transcriptions_create : STT.TranscriptionRequest File → M World STT.Transcription.
Variable exn_str : exn → string.

(** The stages of one call of [STT.detect_language] on a path from the
    world [w]: the transcription inside the [with] block, the analysis
    call, and what is read of its reply. *)
Definition transcription_stage (audio_file_path : string) (w : World)
    : outcome STT.Transcription * World :=
  STT.with_open open_rb close audio_file_path (λ audio_file,
    transcriptions_create
      {| STT.transcription_model := "whisper-1";
         STT.file := audio_file;
         STT.response_format := "verbose_json";
         STT.request_language := None |})
    (snd (time_time w)).

Definition analysis_stage (audio_file_path : string) (w : World)
    (transcription_response : STT.Transcription) : outcome ChatCompletion * World :=
  create (STT.analysis_request transcription_response)
    (snd (transcription_stage audio_file_path w)).

Definition read_analysis (gpt_response : ChatCompletion) : outcome pyvalue :=
  c ← first_choice_content gpt_response; loads json_loads c.

(** The two records [STT.detect_language] can return, up to the time. *)
Definition error_result (e : exn) (elapsed : Q) : STT.LanguageDetectionResult :=
  {| STT.detected_language := PyStr "error";
     STT.confidence := PyFloat 0;
     STT.transcription := EmptyString;
     STT.processing_time := elapsed;
     STT.raw_response := {[ "error" := PyStr (exn_str e) ]} |}.

Definition analysed_result (transcription_response : STT.Transcription)
    (analysis primary conf : pyvalue) (elapsed : Q) : STT.LanguageDetectionResult :=
  {| STT.detected_language := primary;
     STT.confidence := conf;
     STT.transcription := STT.text transcription_response;
     STT.processing_time := elapsed;
     STT.raw_response :=
       {[ "whisper_response" := STT.model_dump transcription_response;
          "gpt_analysis" := analysis ]} |}.


End STTVocabulary.

(** Parts of the world of the concrete runs of the audio detector. *)
Definition open_ok : string → M unit unit := λ _ w, (Ok tt, w).

Definition close_ok : unit → unit → unit := λ _ w, w.

Definition heard (t : STT.Transcription) : STT.TranscriptionRequest unit → M unit STT.Transcription :=
  λ _ w, (Ok t, w).

Definition class_name (e : exn) : string :=
  match e with
  | APIError => "APIError"
  | JSONDecodeError => "JSONDecodeError"
  | KeyError key => "KeyError"
  | TypeError => "TypeError"
  | ValueError => "ValueError"
  | IndexError => "IndexError"
  | AttributeError => "AttributeError"
  end.

Definition tamil_transcription : STT.Transcription :=
  {| STT.text := "Vanakkam, eppadi irukkeenga?";
     STT.language := Some "tamil";
     STT.model_dump := PyDict {[ "text" := PyStr "Vanakkam, eppadi irukkeenga?";
                                 "language" := PyStr "tamil" ]} |}.

(** A reply of the analysis with the two keys that are read, and one
    without [confidence]. *)
Definition analysis_doc : string :=
  json_object
    [ json_member "primary_language" (json_string "Tamil");
      json_member "confidence" "0.75" ].

Definition analysis_value : pyvalue :=
  PyDict {[ "primary_language" := PyStr "Tamil";
            "confidence" := PyFloat (3 # 4) ]}.



(** The string begins, or ends, with a one-byte whitespace character. *)
Definition starts_with_space (s : string) : bool :=
  match s with
  | EmptyString => false
  | String c _ => is_space1 c
  end.

Definition ends_with_space (s : string) : bool :=
  starts_with_space (String.rev s).

(** ** The language mix estimator *)

Section DetectionProperties.

Context {World : Type}.
Variable create : Request → M World ChatCompletion.
Variable json_loads : string → option pyvalue.

Lemma detect_language_run (text : string) (w : World) :
  detect_language create json_loads text w =
    (Ok (detection_of json_loads (fst (create (detection_request text) w))),
     snd (create (detection_request text) w)).
Proof.
  unfold detect_language, try_except, detect_language_try, detection_of, parse_reply.
  unfold mbind, M_bind, outcome_bind, liftR, mret, M_ret.
  destruct (create (detection_request text) w) as [[response | e] w']; simpl; [| done].
  destruct (first_choice_content response) as [c | e]; simpl; [| done].
  destruct (loads json_loads c) as [v | e]; simpl; [| done].
  by destruct (build_detection v).
Qed.

Lemma build_detection_field_fails (v : pyvalue) :
  field_fails v → ∃ e, build_detection v = Raise e.
Proof.
  unfold field_fails, build_detection, mbind, outcome_bind.
  intros H.
  destruct (field_primary_language v); [| eauto].
  destruct (field_secondary_language v); [| eauto].
  destruct (field_confidence v); [| eauto].
  destruct (field_is_code_mixed v); [| eauto].
  destruct (field_mix_ratio v); [| eauto].
  destruct H as [[e H] | [[e H] | [[e H] | [[e H] | [e H]]]]]; discriminate.
Qed.

Lemma detection_failure_fallback (text : string) (w : World) :
  detection_failure create json_loads text w →
  detection_of json_loads (fst (create (detection_request text) w)) = fallback_detection.
Proof.
  unfold detection_of, parsed_reply.
  intros [e H | response e H1 H2 | v H1 H2].
  - by rewrite H.
  - unfold parse_reply. rewrite H1.
    change (match (c ← first_choice_content response; loads json_loads c)
                  ≫= build_detection with
            | Ok d => d
            | Raise _ => fallback_detection
            end = fallback_detection).
    by rewrite H2.
  - unfold parsed_reply in H1.
    destruct (parse_reply json_loads (create (detection_request text) w).1)
      as [v' | e]; [| done].
    injection H1 as ->.
    destruct (build_detection_field_fails v H2) as [e He].
    simpl. by rewrite He.
Qed.

Lemma build_detection_Ok (v : pyvalue) (d : LanguageDetectionResult) :
  build_detection v = Ok d →
  ∃ m : gmap string pyvalue,
    v = PyDict m
    ∧ (∃ p, m !! "primary_language" = Some p
            ∧ SouthIndianLanguage_call p = Ok (primary_language d))
    ∧ (if truthy (default PyNone (m !! "secondary_language"))
       then ∃ x l, m !! "secondary_language" = Some x
                   ∧ SouthIndianLanguage_call x = Ok l
                   ∧ secondary_language d = Some l
       else secondary_language d = None)
    ∧ m !! "confidence" = Some (confidence d)
    ∧ m !! "is_code_mixed" = Some (is_code_mixed d)
    ∧ m !! "mix_ratio" = Some (mix_ratio d).
Proof.
  destruct v as [| | | | | | | | m]; try discriminate.
  unfold build_detection, field_primary_language, field_secondary_language,
    field_confidence, field_is_code_mixed, field_mix_ratio, getitem, get.
  unfold mbind, outcome_bind, mret, outcome_ret.
  intros H. exists m. split; [done |].
  destruct (m !! "primary_language") as [p |] eqn:Hp; [| discriminate].
  destruct (SouthIndianLanguage_call p) as [l |] eqn:Hl; [| discriminate].
  destruct (m !! "confidence") as [c |] eqn:Hc;
    [| by destruct (truthy (default PyNone (m !! "secondary_language")));
          destruct (m !! "secondary_language") as [x |];
          try destruct (SouthIndianLanguage_call x)].
  destruct (m !! "is_code_mixed") as [b |] eqn:Hb;
    [| by destruct (truthy (default PyNone (m !! "secondary_language")));
          destruct (m !! "secondary_language") as [x |];
          try destruct (SouthIndianLanguage_call x)].
  destruct (m !! "mix_ratio") as [r |] eqn:Hr;
    [| by destruct (truthy (default PyNone (m !! "secondary_language")));
          destruct (m !! "secondary_language") as [x |];
          try destruct (SouthIndianLanguage_call x)].
  destruct (truthy (default PyNone (m !! "secondary_language"))) eqn:Ht.
  - destruct (m !! "secondary_language") as [x |] eqn:Hx; [| discriminate].
    destruct (SouthIndianLanguage_call x) as [l2 |] eqn:Hl2; [| discriminate].
    injection H as <-. simpl. repeat split; eauto.
  - injection H as <-. simpl. repeat split; eauto.
Qed.






(** C10: when the reply parses to a JSON object, [detect_language] returns
    the default record if one of the keys [primary_language],
    [confidence], [is_code_mixed], [mix_ratio] is missing; a missing or
    null [secondary_language] does not by itself cause the fallback: with
    a valid primary language and the three other keys present, the record
    has no secondary language and carries the other fields of the reply
    unchanged. *)
Theorem detect_language_keys (text : string) (w : World) (m : gmap string pyvalue) :
  parsed_reply create json_loads text w = Some (PyDict m) →
  ((m !! "primary_language" = None ∨ m !! "confidence" = None
    ∨ m !! "is_code_mixed" = None ∨ m !! "mix_ratio" = None) →
   fst (detect_language create json_loads text w) = Ok fallback_detection)
  ∧ (∀ p l c b r,
       m !! "primary_language" = Some p →
       SouthIndianLanguage_call p = Ok l →
       m !! "confidence" = Some c →
       m !! "is_code_mixed" = Some b →
       m !! "mix_ratio" = Some r →
       (m !! "secondary_language" = None ∨ m !! "secondary_language" = Some PyNone) →
       fst (detect_language create json_loads text w)
       = Ok {| primary_language := l;
               secondary_language := None;
               confidence := c;
               is_code_mixed := b;
               mix_ratio := r |}).
Proof.
  intros Hv. split.
  - intros Hk. rewrite detect_language_run. simpl. f_equal.
    apply detection_failure_fallback.
    apply (invalid_field _ _ _ _ (PyDict m)); [done |].
    unfold field_fails, field_primary_language, field_confidence,
      field_is_code_mixed, field_mix_ratio, getitem.
    destruct Hk as [Hk | [Hk | [Hk | Hk]]]; rewrite Hk; simpl; eauto 10.
  - intros p l c b r Hp Hl Hc Hb Hr Hs.
    rewrite detect_language_run. simpl. f_equal.
    unfold detection_of. unfold parsed_reply in Hv.
    destruct (parse_reply json_loads (create (detection_request text) w).1)
      as [v | e]; [| done].
    injection Hv as ->. simpl.
    unfold build_detection, field_primary_language, field_secondary_language,
      field_confidence, field_is_code_mixed, field_mix_ratio, getitem, get.
    rewrite Hp, Hc, Hb, Hr. simpl. rewrite Hl. simpl.
    by destruct Hs as [-> | ->].
Qed.

End DetectionProperties.






Lemma detect_language_keys_witness :
  fst (detect_language (reply_with (Some no_confidence_doc))
         (loads_document no_confidence_doc no_confidence_value) "Ela unnaru" tt)
  = Ok fallback_detection
  ∧ fst (detect_language (reply_with (Some plain_doc))
           (loads_document plain_doc plain_value) "Ela unnaru" tt)
    = Ok {| primary_language := TELUGU;
            secondary_language := None;
            confidence := PyFloat (1 # 2);
            is_code_mixed := PyBool false;
            mix_ratio := PyFloat 0 |}.
Proof.
  split.
  - refine (proj1 (detect_language_keys (reply_with (Some no_confidence_doc))
                     (loads_document no_confidence_doc no_confidence_value)
                     "Ela unnaru" tt
                     {[ "primary_language" := PyStr "telugu";
                        "is_code_mixed" := PyBool false;
                        "mix_ratio" := PyFloat 0 ]} _) _).
    + vm_compute. reflexivity.
    + right. left. vm_compute. reflexivity.
  - refine (proj2 (detect_language_keys (reply_with (Some plain_doc))
                     (loads_document plain_doc plain_value)
                     "Ela unnaru" tt
                     {[ "primary_language" := PyStr "telugu";
                        "confidence" := PyFloat (1 # 2);
                        "is_code_mixed" := PyBool false;
                        "mix_ratio" := PyFloat 0 ]} _)
                  (PyStr "telugu") TELUGU (PyFloat (1 # 2)) (PyBool false) (PyFloat 0)
                  _ _ _ _ _ _).
    all: try (vm_compute; reflexivity).
    left. vm_compute. reflexivity.
Defined.

(** ** The conversation session *)

Section SessionProperties.

Context {World : Type}.
Variable create : Request → M World ChatCompletion.
Variable json_loads : string → option pyvalue.
Variable time_time : World → Q * World.

Abbreviation reply_to := (generate_response create json_loads time_time).

Lemma generate_response_run (user_input : string) (s : BotState World) :
  reply_to user_input s =
    let d := detected create json_loads time_time user_input s in
    let h := conversation_history s ++ [user_turn user_input] in
    let w3 := snd (create (generation_request_of create json_loads time_time user_input s)
                          (world_at_generation create time_time user_input s)) in
    let elapsed := (fst (time_time w3) - fst (time_time (world s)))%Q in
    match generation_step create json_loads time_time user_input s with
    | Ok reply =>
        (Ok {| response_text := reply;
               detected_language := d;
               response_language := primary_language d;
               processing_time := elapsed |},
         {| conversation_history := h ++ [assistant_turn reply];
            world := snd (time_time w3) |})
    | Raise _ =>
        (Ok {| response_text := Some generation_fallback_text;
               detected_language := d;
               response_language := ENGLISH;
               processing_time := elapsed |},
         {| conversation_history := h; world := snd (time_time w3) |})
    end.
Proof.
  unfold generation_step, generation_request_of, world_at_generation, detected,
    world_at_detection.
  unfold generate_response, generate_response_try, generate_response_except,
    try_except, in_world, clock, history_append, recent, liftR.
  unfold mbind, M_bind, outcome_bind, mret, M_ret. simpl.
  destruct (time_time (world s)) as [t0 w1]. simpl.
  rewrite detect_language_run. simpl.
  destruct (create (generation_request _ _) _) as [[response | e] w3]; simpl.
  - destruct (first_choice_content response) as [reply | e]; simpl;
      by destruct (time_time w3).
  - by destruct (time_time w3).
Qed.

Lemma generate_response_history (user_input : string) (s : BotState World) :
  conversation_history (snd (reply_to user_input s))
  = conversation_history s
    ++ user_turn user_input
       :: match generation_step create json_loads time_time user_input s with
          | Ok reply => [assistant_turn reply]
          | Raise _ => []
          end.
Proof.
  rewrite generate_response_run. simpl.
  destruct (generation_step create json_loads time_time user_input s); simpl.
  - by rewrite <- app_assoc.
  - done.
Qed.

Lemma converse_length (inputs : list string) :
  ∀ s : BotState World,
    all_generated create json_loads time_time inputs s →
    length (conversation_history (converse create json_loads time_time inputs s))
    = (length (conversation_history s) + 2 * length inputs)%nat.
Proof.
  induction inputs as [| user_input rest IH]; intros s Hall; simpl.
  - lia.
  - destruct Hall as [[reply Hreply] Hrest].
    rewrite (IH _ Hrest), generate_response_history, Hreply.
    rewrite length_app. simpl. lia.
Qed.

Lemma converse_extends (inputs : list string) :
  ∀ s : BotState World,
    ∃ new, conversation_history (converse create json_loads time_time inputs s)
           = conversation_history s ++ new.
Proof.
  induction inputs as [| user_input rest IH]; intros s; simpl.
  - exists []. by rewrite app_nil_r.
  - destruct (IH (snd (reply_to user_input s))) as [new Hnew].
    rewrite Hnew, generate_response_history, <- app_assoc. eauto.
Qed.

Lemma generate_response_world (user_input : string) (s : BotState World) :
  world (snd (reply_to user_input s))
  = snd (time_time
           (snd (create (generation_request_of create json_loads time_time user_input s)
                        (world_at_generation create time_time user_input s)))).
Proof.
  rewrite generate_response_run. simpl.
  by destruct (generation_step create json_loads time_time user_input s).
Qed.

Lemma generate_response_detected (user_input : string) (s : BotState World) :
  ∃ r, fst (reply_to user_input s) = Ok r
       ∧ detected_language r = detected create json_loads time_time user_input s.
Proof.
  rewrite generate_response_run. simpl.
  destruct (generation_step create json_loads time_time user_input s); simpl; eauto.
Qed.

(** C5: from an empty history, a series of N calls of [generate_response]
    whose generation steps all succeed leaves a history of length 2N; each
    call appends, after the turns already there and without changing
    them, the user turn and then the assistant turn; a call whose
    generation step fails appends the user turn only, so the length grows
    by exactly one. *)
Theorem generate_response_history_growth :
  (∀ (inputs : list string) (s : BotState World),
     conversation_history s = [] →
     all_generated create json_loads time_time inputs s →
     length (conversation_history (converse create json_loads time_time inputs s))
     = (2 * length inputs)%nat)
  ∧ (∀ (inputs : list string) (s : BotState World),
       ∃ new, conversation_history (converse create json_loads time_time inputs s)
              = conversation_history s ++ new)
  ∧ (∀ (user_input : string) (s : BotState World) reply,
       generation_step create json_loads time_time user_input s = Ok reply →
       conversation_history (snd (reply_to user_input s))
       = conversation_history s ++ [user_turn user_input; assistant_turn reply])
  ∧ (∀ (user_input : string) (s : BotState World) e,
       generation_step create json_loads time_time user_input s = Raise e →
       conversation_history (snd (reply_to user_input s))
       = conversation_history s ++ [user_turn user_input]
       ∧ length (conversation_history (snd (reply_to user_input s)))
         = S (length (conversation_history s))).
Proof.
  repeat split.
  - intros inputs s Hs Hall. rewrite (converse_length inputs s Hall), Hs. simpl. lia.
  - intros inputs s. apply converse_extends.
  - intros user_input s reply H. by rewrite generate_response_history, H.
  - by rewrite generate_response_history, H.
  - rewrite generate_response_history, H, length_app. simpl. lia.
Qed.


End SessionProperties.

Section WindowProperties.

Context {World : Type}.
Variable create : Request → M World ChatCompletion.
Variable json_loads : string → option pyvalue.
Variable time_time : World → Q * World.

Lemma last_n_suffix {A} (n : nat) (l : list A) :
  ∃ older, l = older ++ last_n n l.
Proof. exists (take (length l - n) l). unfold last_n. by rewrite take_drop. Qed.

Lemma last_n_length {A} (n : nat) (l : list A) :
  length (last_n n l) = min n (length l).
Proof. unfold last_n. rewrite length_drop. lia. Qed.

Lemma last_n_all {A} (n : nat) (l : list A) :
  (length l ≤ n)%nat → last_n n l = l.
Proof. intros H. unfold last_n. by replace (length l - n)%nat with 0%nat by lia. Qed.

Lemma logged_log (req : Request) (lw : list Request * World) :
  fst (snd (logged create req lw)) = fst lw ++ [req].
Proof. unfold logged. by destruct (create req (snd lw)). Qed.

Lemma logged_clock_log (lw : list Request * World) :
  fst (snd (logged_clock time_time lw)) = fst lw.
Proof. unfold logged_clock. by destruct (time_time (snd lw)). Qed.

(** C6: in every call of [generate_response] the request of the generation
    step, as the capability receives it, has as messages the system
    message with the directive built from the record of this call,
    followed by a window of the history (the new user turn included): the
    window is a suffix of the history, it has exactly 10 turns when the
    history has more than 10, and it is the whole history when that has
    10 turns or fewer. *)
Theorem generate_response_window (user_input : string) (h : list Message)
    (log : list Request) (w : World) :
  let s := {| conversation_history := h; world := (log, w) |} in
  let run := generate_response (logged create) json_loads (logged_clock time_time)
               user_input s in
  let full := h ++ [user_turn user_input] in
  ∃ r req window,
    fst run = Ok r
    ∧ fst (world (snd run)) = log ++ [detection_request user_input; req]
    ∧ messages req = system_message (create_system_prompt (detected_language r)) :: window
    ∧ (∃ older, full = older ++ window)
    ∧ ((10 < length full)%nat → length window = 10%nat)
    ∧ ((length full ≤ 10)%nat → window = full).
Proof.
  intros s run full. subst run.
  destruct (generate_response_detected (logged create) json_loads
              (logged_clock time_time) user_input s) as (r & Hr & Hd).
  exists r,
    (generation_request_of (logged create) json_loads (logged_clock time_time)
       user_input s),
    (last_n 10 full).
  split; [exact Hr |].
  split.
  { rewrite generate_response_world, logged_clock_log, logged_log.
    unfold world_at_generation, world_at_detection.
    rewrite logged_log, logged_clock_log. simpl.
    by rewrite <- app_assoc. }
  split; [by rewrite Hd |].
  split; [apply last_n_suffix |].
  split; [intros H; rewrite last_n_length; lia | apply last_n_all].
Qed.

End WindowProperties.

Lemma generate_response_history_growth_witness :
  length (conversation_history
            (converse (reply_with (Some "Seri, paarkalam!"))
               (loads_document plain_doc plain_value) frozen_clock
               ["Vanakkam"; "Naalaikku meeting irukka?"]
               {| conversation_history := []; world := tt |}))
  = 4%nat.
Proof.
  apply (proj1 (generate_response_history_growth (reply_with (Some "Seri, paarkalam!"))
                  (loads_document plain_doc plain_value) frozen_clock)
           ["Vanakkam"; "Naalaikku meeting irukka?"]
           {| conversation_history := []; world := tt |}).
  - reflexivity.
  - simpl. repeat split; eexists; vm_compute; reflexivity.
Defined.


Lemma generate_response_window_witness :
  ∃ r req window,
    fst (generate_response (logged (reply_with (Some "Seri!")))
           (loads_document plain_doc plain_value) (logged_clock frozen_clock)
           "Innum oru kelvi"
           {| conversation_history :=
                List.repeat (user_turn "Vanakkam") 6 ++ List.repeat (assistant_turn (Some "Seri!")) 6;
              world := ([], tt) |}) = Ok r
    ∧ messages req = system_message (create_system_prompt (detected_language r)) :: window
    ∧ length window = 10%nat.
Proof.
  destruct (generate_response_window (reply_with (Some "Seri!"))
              (loads_document plain_doc plain_value) frozen_clock
              "Innum oru kelvi"
              (List.repeat (user_turn "Vanakkam") 6
               ++ List.repeat (assistant_turn (Some "Seri!")) 6)
              [] tt)
    as (r & req & window & Hr & _ & Hm & _ & Hlen & _).
  exists r, req, window.
  split; [exact Hr |]. split; [exact Hm |].
  apply Hlen. vm_compute. lia.
Defined.

(** ** The response policy builder *)

Lemma create_system_prompt_prompt_for (d : LanguageDetectionResult) :
  create_system_prompt d = prompt_for (truthy (is_code_mixed d)) (primary_language d).
Proof.
  unfold prompt_for, create_system_prompt. simpl.
  by destruct (truthy (is_code_mixed d)).
Qed.





Lemma prompt_for_nonempty (b : bool) (p : SouthIndianLanguage) :
  prompt_for b p ≠ EmptyString.
Proof.
  apply String.eqb_neq. by destruct b, p; vm_compute.
Qed.

(** C8: the lookup of the cultural context is total.  [ENGLISH] and [MIXED]
    are not in the table; a tag that is not in the table resolves to the
    empty context, whose three fields read as the defaults [Hello],
    [General South Indian] and [South Indian cuisine]; a tag that is in the
    table resolves to an entry with the three fields; and
    [create_system_prompt] yields a non-empty text for every record, built
    from the defaults when the record is code-mixed with a tag outside the
    table. *)
Theorem cultural_context_lookup_total :
  cultural_context !! ENGLISH = None
  ∧ cultural_context !! MIXED = None
  ∧ (∀ tag : SouthIndianLanguage,
       cultural_context !! tag = None →
       get_or cultural_context tag ∅ = ∅
       ∧ get_or (get_or cultural_context tag ∅) "greeting" "Hello" = "Hello"
       ∧ get_or (get_or cultural_context tag ∅) "culture" "General South Indian"
         = "General South Indian"
       ∧ get_or (get_or cultural_context tag ∅) "food" "South Indian cuisine"
         = "South Indian cuisine")
  ∧ (∀ tag : SouthIndianLanguage,
       is_Some (cultural_context !! tag) →
       is_Some (get_or cultural_context tag ∅ !! "greeting")
       ∧ is_Some (get_or cultural_context tag ∅ !! "culture")
       ∧ is_Some (get_or cultural_context tag ∅ !! "food"))
  ∧ (∀ d : LanguageDetectionResult, create_system_prompt d ≠ EmptyString)
  ∧ (∀ d : LanguageDetectionResult,
       truthy (is_code_mixed d) = true →
       cultural_context !! primary_language d = None →
       create_system_prompt d = prompt_code_mixed (primary_language d) ∅).
Proof.
  split; [by vm_compute |]. split; [by vm_compute |].
  split; [| split; [| split]].
  - intros tag H. unfold get_or at 1 3 5 7. rewrite H. simpl.
    by vm_compute.
  - intros tag [c H]. unfold get_or. rewrite H. simpl.
    destruct tag; vm_compute in H; try discriminate;
      injection H as <-; vm_compute; repeat split; eauto.
  - intros d. rewrite create_system_prompt_prompt_for. apply prompt_for_nonempty.
  - intros d Hm Hc. unfold create_system_prompt, get_or. by rewrite Hm, Hc.
Qed.

Lemma cultural_context_lookup_total_witness :
  create_system_prompt {| primary_language := MIXED;
                          secondary_language := None;
                          confidence := PyFloat (1 # 2);
                          is_code_mixed := PyBool true;
                          mix_ratio := PyFloat (1 # 2) |}
  = prompt_code_mixed MIXED ∅.
Proof.
  apply (proj2 (proj2 (proj2 (proj2 (proj2 cultural_context_lookup_total))))
           {| primary_language := MIXED;
              secondary_language := None;
              confidence := PyFloat (1 # 2);
              is_code_mixed := PyBool true;
              mix_ratio := PyFloat (1 # 2) |}).
  - reflexivity.
  - vm_compute. reflexivity.
Defined.

(** ** The enhancement pass *)

Section EnhanceProperties.

Context {World : Type}.
Variable create : Request → M World ChatCompletion.


End EnhanceProperties.


(** * Further properties of the program *)

(** ** The enumeration and the fields of a reply *)

Lemma value_inj (l1 l2 : SouthIndianLanguage) : value l1 = value l2 → l1 = l2.
Proof. by destruct l1, l2. Qed.

Lemma SouthIndianLanguage_call_member (l : SouthIndianLanguage) :
  SouthIndianLanguage_call (PyStr (value l)) = Ok l.
Proof. by destruct l. Qed.

Lemma SouthIndianLanguage_call_Ok (v : pyvalue) (l : SouthIndianLanguage) :
  SouthIndianLanguage_call v = Ok l → v = PyStr (value l).
Proof.
  destruct v as [| | | | | | s | |]; try done. unfold SouthIndianLanguage_call.
  destruct (List.find (λ m, String.eqb (value m) s) members) as [m |] eqn:Hfind;
    [| done].
  intros [= <-]. apply find_some in Hfind as [_ Heq].
  apply String.eqb_eq in Heq. by rewrite Heq.
Qed.

(** X1: the call [SouthIndianLanguage(v)] succeeds with the member [l]
    exactly when [v] is the string that is the value of [l]: the value of
    a member decodes to that member, and nothing else decodes (no other
    spelling or case, no value that is not a string). *)
Theorem SouthIndianLanguage_call_value (v : pyvalue) (l : SouthIndianLanguage) :
  SouthIndianLanguage_call v = Ok l ↔ v = PyStr (value l).
Proof.
  split.
  - apply SouthIndianLanguage_call_Ok.
  - intros ->. apply SouthIndianLanguage_call_member.
Qed.

Lemma value_truthy (l : SouthIndianLanguage) : truthy (PyStr (value l)) = true.
Proof. by destruct l. Qed.

Lemma build_detection_describes (m : gmap string pyvalue) (d : LanguageDetectionResult) :
  build_detection (PyDict m) = Ok d ↔ reply_describes m d.
Proof.
  split.
  - intros H. destruct (build_detection_Ok _ _ H) as (m' & [= <-] & Hp & Hs & Hc & Hb & Hr).
    destruct Hp as (p & Hp & Hl). apply SouthIndianLanguage_call_Ok in Hl as ->.
    repeat split; try done.
    destruct (truthy (default PyNone (m !! "secondary_language"))) eqn:Ht.
    + destruct Hs as (x & l & Hx & Hl & ->).
      by apply SouthIndianLanguage_call_Ok in Hl as ->.
    + by rewrite Hs.
  - intros (Hp & Hs & Hc & Hb & Hr). destruct d as [p s c b r]. simpl in *.
    unfold build_detection, field_primary_language, field_secondary_language,
      field_confidence, field_is_code_mixed, field_mix_ratio, getitem, get.
    unfold mbind, outcome_bind, mret, outcome_ret.
    rewrite Hp, Hc, Hb, Hr, SouthIndianLanguage_call_member.
    destruct s as [l |].
    + rewrite Hs. unfold default, id. rewrite value_truthy.
      by rewrite SouthIndianLanguage_call_member.
    + by rewrite Hs.
Qed.

Lemma build_detection_same_fields (m m' : gmap string pyvalue) :
  same_fields m m' → build_detection (PyDict m) = build_detection (PyDict m').
Proof.
  intros (Hp & Hs & Hc & Hb & Hr).
  unfold build_detection, field_primary_language, field_secondary_language,
    field_confidence, field_is_code_mixed, field_mix_ratio, getitem, get.
  by rewrite Hp, Hs, Hc, Hb, Hr.
Qed.

Section DetectionFurther.

Context {World : Type}.
Variable create : Request → M World ChatCompletion.
Variable json_loads : string → option pyvalue.

Lemma detect_language_parsed (text : string) (w : World) (v : pyvalue) :
  parsed_reply create json_loads text w = Some v →
  fst (detect_language create json_loads text w)
  = Ok match build_detection v with
       | Ok d => d
       | Raise _ => fallback_detection
       end.
Proof.
  intros H. rewrite detect_language_run. simpl. f_equal.
  unfold detection_of. unfold parsed_reply in H.
  destruct (parse_reply json_loads (create (detection_request text) w).1)
    as [v' | e]; [| done].
  by injection H as ->.
Qed.

(** X2: when the reply parses to a JSON object, [detect_language] returns
    the record the object describes, including a secondary language given
    by the value of a member; a falsy [secondary_language] of any kind
    (null, empty string, zero, false, empty list) reads as none; and when
    the object describes no record the result is the default record. *)
Theorem detect_language_object (text : string) (w : World) (m : gmap string pyvalue) :
  parsed_reply create json_loads text w = Some (PyDict m) →
  (∀ d, reply_describes m d →
        fst (detect_language create json_loads text w) = Ok d)
  ∧ ((∀ d, ¬ reply_describes m d) →
     fst (detect_language create json_loads text w) = Ok fallback_detection).
Proof.
  intros Hv. rewrite (detect_language_parsed text w _ Hv). split.
  - intros d Hd. apply build_detection_describes in Hd. by rewrite Hd.
  - intros Hnone. destruct (build_detection (PyDict m)) as [d |] eqn:Hd; [| done].
    apply build_detection_describes in Hd. by destruct (Hnone d).
Qed.

(** X3: the record depends on the five fields only: two replies that parse
    to objects with the same [primary_language], [secondary_language],
    [confidence], [is_code_mixed] and [mix_ratio] give the same record,
    whatever other keys (a [reasoning], say) either of them has. *)
Theorem detect_language_same_fields (text text' : string) (w w' : World)
    (m m' : gmap string pyvalue) :
  parsed_reply create json_loads text w = Some (PyDict m) →
  parsed_reply create json_loads text' w' = Some (PyDict m') →
  same_fields m m' →
  fst (detect_language create json_loads text w)
  = fst (detect_language create json_loads text' w').
Proof.
  intros Hv Hv' Hsame.
  rewrite (detect_language_parsed text w _ Hv), (detect_language_parsed text' w' _ Hv').
  by rewrite (build_detection_same_fields m m' Hsame).
Qed.

End DetectionFurther.

Lemma detect_language_object_witness :
  fst (detect_language (reply_with (Some mixed_doc))
         (loads_document mixed_doc mixed_value) "Naan office-la irukken" tt)
  = Ok {| primary_language := TAMIL;
          secondary_language := Some ENGLISH;
          confidence := PyFloat (3 # 4);
          is_code_mixed := PyBool true;
          mix_ratio := PyFloat (1 # 2) |}.
Proof.
  refine (proj1 (detect_language_object (reply_with (Some mixed_doc))
                   (loads_document mixed_doc mixed_value) "Naan office-la irukken" tt
                   {[ "primary_language" := PyStr "tamil";
                      "secondary_language" := PyStr "english";
                      "confidence" := PyFloat (3 # 4);
                      "is_code_mixed" := PyBool true;
                      "mix_ratio" := PyFloat (1 # 2) ]} _) _ _).
  - vm_compute. reflexivity.
  - repeat split; vm_compute; reflexivity.
Defined.

Lemma detect_language_same_fields_witness :
  fst (detect_language (reply_by_world (Some mixed_doc) (Some mixed_reasoned_doc))
         (loads_table [(mixed_doc, mixed_value); (mixed_reasoned_doc, mixed_reasoned_value)])
         "Naan office-la irukken" true)
  = fst (detect_language (reply_by_world (Some mixed_doc) (Some mixed_reasoned_doc))
           (loads_table [(mixed_doc, mixed_value); (mixed_reasoned_doc, mixed_reasoned_value)])
           "Naan office-la irukken" false).
Proof.
  refine (detect_language_same_fields
            (reply_by_world (Some mixed_doc) (Some mixed_reasoned_doc))
            (loads_table [(mixed_doc, mixed_value); (mixed_reasoned_doc, mixed_reasoned_value)])
            "Naan office-la irukken" "Naan office-la irukken" true false
            {[ "primary_language" := PyStr "tamil";
               "secondary_language" := PyStr "english";
               "confidence" := PyFloat (3 # 4);
               "is_code_mixed" := PyBool true;
               "mix_ratio" := PyFloat (1 # 2) ]}
            {[ "primary_language" := PyStr "tamil";
               "secondary_language" := PyStr "english";
               "confidence" := PyFloat (3 # 4);
               "is_code_mixed" := PyBool true;
               "mix_ratio" := PyFloat (1 # 2);
               "reasoning" := PyStr "Tamil words in an English frame" ]} _ _ _).
  - vm_compute. reflexivity.
  - vm_compute. reflexivity.
  - repeat split; vm_compute; reflexivity.
Defined.

(** ** The session: what a call sends and what it keeps *)

Section SessionFurther.

Context {World : Type}.
Variable create : Request → M World ChatCompletion.
Variable json_loads : string → option pyvalue.
Variable time_time : World → Q * World.

Abbreviation reply_to := (generate_response create json_loads time_time).
Abbreviation logged_reply_to :=
  (generate_response (logged create) json_loads (logged_clock time_time)).

Lemma generate_response_log (user_input : string) (s : BotState (list Request * World)) :
  fst (world (snd (logged_reply_to user_input s)))
  = fst (world s)
    ++ [detection_request user_input;
        generation_request_of (logged create) json_loads (logged_clock time_time)
          user_input s].
Proof.
  rewrite generate_response_world, logged_clock_log, logged_log.
  unfold world_at_generation, world_at_detection.
  rewrite logged_log, logged_clock_log.
  by rewrite <- app_assoc.
Qed.

Lemma last_n_snoc {A} (n : nat) (l : list A) (x : A) :
  last_n (S n) (l ++ [x]) = last_n n l ++ [x].
Proof.
  unfold last_n. rewrite length_app. simpl.
  replace (length l + 1 - S n)%nat with (length l - n)%nat by lia.
  apply drop_app_le. lia.
Qed.

(** X4: when the generation step of a call succeeds, the response carries
    the text of the reply, the record [detect_language] returned in this
    call, and the primary language of that record as response language. *)
Theorem generate_response_success (user_input : string) (s : BotState World)
    (reply : option string) :
  generation_step create json_loads time_time user_input s = Ok reply →
  ∃ d w elapsed,
    detect_language create json_loads user_input (world_at_detection time_time s)
    = (Ok d, w)
    ∧ fst (reply_to user_input s)
      = Ok {| response_text := reply;
              detected_language := d;
              response_language := primary_language d;
              processing_time := elapsed |}.
Proof.
  intros H. rewrite generate_response_run, H. simpl.
  rewrite detect_language_run. eauto.
Qed.

(** X5: every call makes exactly two requests, the detection request and
    then the generation request, and the generation request always ends
    with the user turn of this call; it has the system message, that turn
    and at most nine earlier turns, so between 2 and 11 messages. *)
Theorem generate_response_requests (user_input : string)
    (s : BotState (list Request * World)) :
  ∃ req,
    fst (world (snd (logged_reply_to user_input s)))
    = fst (world s) ++ [detection_request user_input; req]
    ∧ last (messages req) = Some (user_turn user_input)
    ∧ (2 ≤ length (messages req) ≤ 11)%nat.
Proof.
  eexists. split; [apply generate_response_log |].
  unfold generation_request_of, generation_request. simpl.
  rewrite last_n_snoc. split.
  - by rewrite app_comm_cons, last_snoc.
  - rewrite length_app, last_n_length. cbn [length]. lia.
Qed.

Lemma generate_response_turns (user_input : string) (s : BotState World) :
  Forall is_turn (conversation_history s) →
  Forall is_turn (conversation_history (snd (reply_to user_input s))).
Proof.
  intros H. rewrite generate_response_history.
  apply Forall_app. split; [done |].
  apply Forall_cons. split; [by left |].
  destruct (generation_step create json_loads time_time user_input s);
    [| by apply Forall_nil].
  apply Forall_cons. split; [by right | by apply Forall_nil].
Qed.

(** X6: the history holds user and assistant turns only: if that is so
    before a series of calls it is so after it, whatever the capability
    does, and in particular no directive (system message) is ever stored
    in the history. *)
Theorem converse_turns (inputs : list string) (s : BotState World) :
  Forall is_turn (conversation_history s) →
  Forall is_turn (conversation_history (converse create json_loads time_time inputs s))
  ∧ ∀ directive,
      system_message directive
      ∉ conversation_history (converse create json_loads time_time inputs s).
Proof.
  intros H.
  assert (Hall : Forall is_turn
            (conversation_history (converse create json_loads time_time inputs s))).
  { revert s H. induction inputs as [| user_input rest IH]; intros s H; simpl; [done |].
    apply IH. by apply generate_response_turns. }
  split; [done |].
  intros directive Hin. rewrite Forall_forall in Hall.
  by destruct (Hall _ Hin) as [Hrole | Hrole].
Qed.

(** X7: a call whose generation step fails leaves its user turn in the
    history, so the next call sends it again: the generation request of
    the next call ends with the user turn of the failed call followed by
    the new user turn. *)
Theorem generate_response_after_failure (first second : string)
    (s : BotState (list Request * World)) (e : exn) :
  generation_step (logged create) json_loads (logged_clock time_time) first s = Raise e →
  let s1 := snd (logged_reply_to first s) in
  ∃ req front,
    fst (world (snd (logged_reply_to second s1)))
    = fst (world s1) ++ [detection_request second; req]
    ∧ messages req = front ++ [user_turn first; user_turn second].
Proof.
  intros H s1.
  eexists _, (system_message _ :: last_n 8 (conversation_history s)).
  split; [apply generate_response_log |].
  unfold generation_request_of, generation_request. simpl. f_equal.
  subst s1. rewrite generate_response_history, H.
  rewrite !last_n_snoc. by rewrite <- app_assoc.
Qed.

End SessionFurther.

Lemma generate_response_success_witness :
  ∃ d w elapsed,
    detect_language (reply_with (Some plain_doc))
      (loads_document plain_doc plain_value) "Ela unnaru"
      (world_at_detection frozen_clock {| conversation_history := []; world := tt |})
    = (Ok d, w)
    ∧ fst (generate_response (reply_with (Some plain_doc))
             (loads_document plain_doc plain_value) frozen_clock "Ela unnaru"
             {| conversation_history := []; world := tt |})
      = Ok {| response_text := Some plain_doc;
              detected_language := d;
              response_language := primary_language d;
              processing_time := elapsed |}.
Proof.
  apply (generate_response_success (reply_with (Some plain_doc))
           (loads_document plain_doc plain_value) frozen_clock "Ela unnaru"
           {| conversation_history := []; world := tt |} (Some plain_doc)).
  vm_compute. reflexivity.
Defined.

Lemma converse_turns_witness :
  Forall is_turn
    (conversation_history
       (converse (detection_only (Some plain_doc))
          (loads_document plain_doc plain_value) frozen_clock
          ["Vanakkam"; "Ela unnaru"]
          {| conversation_history := [user_turn "Hello"]; world := tt |})).
Proof.
  refine (proj1 (converse_turns (detection_only (Some plain_doc))
                   (loads_document plain_doc plain_value) frozen_clock
                   ["Vanakkam"; "Ela unnaru"]
                   {| conversation_history := [user_turn "Hello"]; world := tt |} _)).
  apply Forall_cons. split; [by left | by apply Forall_nil].
Defined.

Lemma generate_response_after_failure_witness :
  ∃ req front,
    fst (world (snd
      (generate_response (logged always_failing)
         (loads_document plain_doc plain_value) (logged_clock frozen_clock)
         "Innoru kelvi"
         (snd (generate_response (logged always_failing)
                 (loads_document plain_doc plain_value) (logged_clock frozen_clock)
                 "Vanakkam"
                 {| conversation_history := []; world := ([], tt) |})))))
    = fst (world (snd (generate_response (logged always_failing)
                         (loads_document plain_doc plain_value) (logged_clock frozen_clock)
                         "Vanakkam"
                         {| conversation_history := []; world := ([], tt) |})))
      ++ [detection_request "Innoru kelvi"; req]
    ∧ messages req = front ++ [user_turn "Vanakkam"; user_turn "Innoru kelvi"].
Proof.
  apply (generate_response_after_failure always_failing
           (loads_document plain_doc plain_value) frozen_clock
           "Vanakkam" "Innoru kelvi"
           {| conversation_history := []; world := ([], tt) |} APIError).
  vm_compute. reflexivity.
Defined.

(** ** The directive: what it reads and what it mentions *)

(** X8: the directive is read off the primary language and the truth value
    of [is_code_mixed] alone: two records that agree on these get the same
    directive, whatever their secondary language, confidence and mix
    ratio. *)
Theorem create_system_prompt_reads (d d' : LanguageDetectionResult) :
  primary_language d = primary_language d' →
  truthy (is_code_mixed d) = truthy (is_code_mixed d') →
  create_system_prompt d = create_system_prompt d'.
Proof.
  intros Hp Hm. rewrite !create_system_prompt_prompt_for. by rewrite Hp, Hm.
Qed.

Lemma create_system_prompt_reads_witness :
  create_system_prompt {| primary_language := TAMIL;
                          secondary_language := Some ENGLISH;
                          confidence := PyFloat (3 # 4);
                          is_code_mixed := PyBool true;
                          mix_ratio := PyFloat (1 # 4) |}
  = create_system_prompt {| primary_language := TAMIL;
                            secondary_language := None;
                            confidence := PyFloat (1 # 2);
                            is_code_mixed := PyInt 1;
                            mix_ratio := PyFloat (3 # 4) |}.
Proof.
  apply (create_system_prompt_reads
           {| primary_language := TAMIL;
              secondary_language := Some ENGLISH;
              confidence := PyFloat (3 # 4);
              is_code_mixed := PyBool true;
              mix_ratio := PyFloat (1 # 4) |}
           {| primary_language := TAMIL;
              secondary_language := None;
              confidence := PyFloat (1 # 2);
              is_code_mixed := PyInt 1;
              mix_ratio := PyFloat (3 # 4) |}); reflexivity.
Defined.

(** X9: for a code-mixed record whose primary language is in the cultural
    table, the directive contains every entry of that language's context:
    its greeting, its cultural references and its food references. *)
Theorem create_system_prompt_mentions_context (d : LanguageDetectionResult)
    (context : gmap string string) (key entry : string) :
  truthy (is_code_mixed d) = true →
  cultural_context !! primary_language d = Some context →
  context !! key = Some entry →
  contains entry (create_system_prompt d) = true.
Proof.
  intros Hm Hc Hk. rewrite create_system_prompt_prompt_for, Hm.
  apply elem_of_map_to_list in Hk.
  destruct (primary_language d); vm_compute in Hc; try discriminate;
    injection Hc as <-;
    set (l := map_to_list _) in Hk; vm_compute in l; subst l;
    repeat (apply elem_of_cons in Hk as [[= -> ->] | Hk]; [by vm_compute |]);
    by apply elem_of_nil in Hk.
Qed.

Lemma create_system_prompt_mentions_context_witness :
  contains "Karnataka culture, Bangalore references, Sandalwood"
    (create_system_prompt {| primary_language := KANNADA;
                             secondary_language := Some ENGLISH;
                             confidence := PyFloat (3 # 4);
                             is_code_mixed := PyBool true;
                             mix_ratio := PyFloat (1 # 2) |}) = true.
Proof.
  apply (create_system_prompt_mentions_context
           {| primary_language := KANNADA;
              secondary_language := Some ENGLISH;
              confidence := PyFloat (3 # 4);
              is_code_mixed := PyBool true;
              mix_ratio := PyFloat (1 # 2) |}
           {[ "greeting" := "Namaskara";
              "culture" := "Karnataka culture, Bangalore references, Sandalwood";
              "food" := "masala dosa, mysore pak, Kannada cuisine" ]}
           "culture").
  - reflexivity.
  - vm_compute. reflexivity.
  - vm_compute. reflexivity.
Defined.

(** ** [str.strip] and [str.replace] keep to the text they are given *)

#[local] Arguments String.append !_ _ / : simpl nomatch.

Lemma occurs_app (c : ascii) (s1 s2 : string) :
  occurs c (s1 +:+ s2) = occurs c s1 || occurs c s2.
Proof.
  induction s1 as [| c' s1 IH]; simpl; [done |].
  by rewrite IH, orb_assoc.
Qed.

Lemma occurs_rev_app (c : ascii) (s1 s2 : string) :
  occurs c (String.rev_app s1 s2) = occurs c s1 || occurs c s2.
Proof.
  revert s2. induction s1 as [| c' s1 IH]; intros s2; simpl; [done |].
  rewrite IH. simpl. destruct (Ascii.eqb c c'), (occurs c s1), (occurs c s2); done.
Qed.

Lemma occurs_rev (c : ascii) (s : string) :
  occurs c (String.rev s) = occurs c s.
Proof. unfold String.rev. rewrite occurs_rev_app. simpl. apply orb_false_r. Qed.

Lemma length_rev_app (s1 s2 : string) :
  String.length (String.rev_app s1 s2) = (String.length s1 + String.length s2)%nat.
Proof.
  revert s2. induction s1 as [| c' s1 IH]; intros s2; simpl; [done |].
  rewrite IH. simpl. lia.
Qed.

Lemma length_rev (s : string) : String.length (String.rev s) = String.length s.
Proof. unfold String.rev. rewrite length_rev_app. simpl. lia. Qed.

Lemma drop_space_suffix (backwards : bool) (n : nat) :
  ∀ s, (String.length s ≤ n)%nat → ∃ front, s = front +:+ drop_space backwards s.
Proof.
  induction n as [| n IH]; intros s Hn.
  - destruct s; simpl in Hn; [| lia]. by exists EmptyString.
  - destruct s as [| c1 rest1]; [by exists EmptyString |].
    simpl in Hn. simpl.
    destruct (is_space1 c1).
    { destruct (IH rest1) as [front Hf]; [lia |].
      exists (String c1 front). simpl. by rewrite <- Hf. }
    destruct rest1 as [| c2 rest2]; [by exists EmptyString |].
    simpl in Hn.
    destruct (if backwards then is_space2 c2 c1 else is_space2 c1 c2).
    { destruct (IH rest2) as [front Hf]; [lia |].
      exists (String c1 (String c2 front)). simpl. by rewrite <- Hf. }
    destruct rest2 as [| c3 rest3]; [by exists EmptyString |].
    simpl in Hn.
    destruct (if backwards then is_space3 c3 c2 c1 else is_space3 c1 c2 c3).
    { destruct (IH rest3) as [front Hf]; [lia |].
      exists (String c1 (String c2 (String c3 front))). simpl. by rewrite <- Hf. }
    by exists EmptyString.
Qed.

Lemma length_append (s1 s2 : string) :
  String.length (s1 +:+ s2) = (String.length s1 + String.length s2)%nat.
Proof. induction s1 as [| c s1 IH]; simpl; [done | by rewrite IH]. Qed.

Lemma drop_space_occurs (backwards : bool) (c : ascii) (s : string) :
  occurs c (drop_space backwards s) = true → occurs c s = true.
Proof.
  destruct (drop_space_suffix backwards (String.length s) s) as [front Hf]; [done |].
  intros H. rewrite Hf, occurs_app, H. apply orb_true_r.
Qed.

Lemma drop_space_length (backwards : bool) (s : string) :
  (String.length (drop_space backwards s) ≤ String.length s)%nat.
Proof.
  destruct (drop_space_suffix backwards (String.length s) s) as [front Hf]; [done |].
  rewrite Hf at 2. rewrite length_append. lia.
Qed.

Lemma str_strip_occurs (c : ascii) (s : string) :
  occurs c (str_strip s) = true → occurs c s = true.
Proof.
  unfold str_strip. rewrite occurs_rev. intros H.
  apply drop_space_occurs in H. rewrite occurs_rev in H.
  by apply drop_space_occurs in H.
Qed.

Lemma str_strip_length (s : string) :
  (String.length (str_strip s) ≤ String.length s)%nat.
Proof.
  unfold str_strip. rewrite length_rev.
  etransitivity; [apply drop_space_length |].
  rewrite length_rev. apply drop_space_length.
Qed.

Lemma replace_from_cons (skip : nat) (old new : string) (c : ascii) (s : string) :
  replace_from skip old new (String c s)
  = match skip with
    | S k => replace_from k old new s
    | O =>
        if String.prefix old (String c s)
        then new +:+ replace_from (String.length old - 1) old new s
        else String c (replace_from 0 old new s)
    end.
Proof. reflexivity. Qed.

Lemma replace_from_delete_occurs (c : ascii) (old s : string) :
  ∀ skip, occurs c (replace_from skip old EmptyString s) = true → occurs c s = true.
Proof.
  induction s as [| c' s IH]; intros skip; [done |].
  rewrite replace_from_cons. cbn [occurs].
  destruct skip as [| k]; [destruct (String.prefix old (String c' s)) |].
  - change (EmptyString +:+ ?x) with x. intros H. rewrite (IH _ H). apply orb_true_r.
  - cbn [occurs]. destruct (Ascii.eqb c c'); [done |]. apply IH.
  - intros H. rewrite (IH _ H). apply orb_true_r.
Qed.

Lemma replace_from_delete_length (old s : string) :
  ∀ skip, (String.length (replace_from skip old EmptyString s) ≤ String.length s)%nat.
Proof.
  induction s as [| c' s IH]; intros skip; [done |].
  rewrite replace_from_cons. cbn [String.length].
  destruct skip as [| k]; [destruct (String.prefix old (String c' s)) |].
  - change (EmptyString +:+ ?x) with x.
    specialize (IH (String.length old - 1)%nat). lia.
  - cbn [String.length]. specialize (IH 0%nat). lia.
  - specialize (IH k). lia.
Qed.

Lemma str_replace_delete_occurs (c : ascii) (s old : string) :
  old ≠ EmptyString →
  occurs c (str_replace s old EmptyString) = true → occurs c s = true.
Proof.
  destruct old as [| a old]; [done |]. intros _. apply replace_from_delete_occurs.
Qed.

Lemma str_replace_delete_length (s old : string) :
  old ≠ EmptyString →
  (String.length (str_replace s old EmptyString) ≤ String.length s)%nat.
Proof.
  destruct old as [| a old]; [done |]. intros _. apply replace_from_delete_length.
Qed.

Lemma str_replace_quote_gone (s : string) :
  occurs quote_char (str_replace s dq EmptyString) = false.
Proof.
  unfold str_replace, dq. fold quote_char.
  induction s as [| c s IH]; [done |].
  rewrite replace_from_cons.
  change (String.length (String quote_char EmptyString) - 1)%nat with 0%nat.
  change (EmptyString +:+ ?x) with x.
  destruct (String.prefix (String quote_char EmptyString) (String c s)) eqn:Hp;
    [exact IH |].
  cbn [occurs]. rewrite IH, orb_false_r.
  destruct (Ascii.eqb quote_char c) eqn:Heq; [| done].
  apply Ascii.eqb_eq in Heq as <-.
  cbn [String.prefix] in Hp. destruct (ascii_dec quote_char quote_char); [| done].
  by destruct s.
Qed.

(** ** [tts.py]: the sample phrases, the enhancement and the synthesis *)

(** X10: every phrase [get_phrases] returns for a language is listed for
    that language, has no secondary language, a mix ratio between 0 and 1
    and a text; each of the four regional languages has four phrases, and
    [MIXED], which is not a key of the table, has none. *)
Theorem get_phrases_listed :
  (∀ l p, p ∈ TTS.get_phrases l → phrase_listed_for l p = true)
  ∧ TTS.get_phrases TTS.MIXED = []
  ∧ (∀ l, l ≠ TTS.MIXED → length (TTS.get_phrases l) = 4%nat).
Proof.
  split; [| split].
  - intros l p Hp. apply list_elem_of_In in Hp.
    assert (H : forallb (phrase_listed_for l) (TTS.get_phrases l) = true)
      by (by destruct l; vm_compute).
    rewrite forallb_forall in H. by apply H.
  - by vm_compute.
  - intros l Hl. by destruct l; [vm_compute .. | done].
Qed.

Lemma get_phrases_listed_witness :
  phrase_listed_for TTS.TAMIL coffee_phrase = true.
Proof.
  apply (proj1 get_phrases_listed TTS.TAMIL coffee_phrase).
  vm_compute. do 3 (apply elem_of_cons; right). apply elem_of_cons. by left.
Defined.

Section SpeechProperties.

Context {World : Type}.
Variable create : Request → M World ChatCompletion.
Variable speech_create : TTS.SpeechRequest → M World (list Byte.byte).
Variable named_temporary_file : string → M World string.
Variable file_write : string → list Byte.byte → M World unit.
Variable file_close : string → M World unit.

Abbreviation speak :=
  (TTS.generate_speech create speech_create named_temporary_file file_write file_close).
Abbreviation speak_try :=
  (TTS.generate_speech_try speech_create named_temporary_file file_write file_close).

Lemma bind_run {St A B} (m : M St A) (k : A → M St B) (s : St) :
  (m ≫= k) s
  = match m s with
    | (Ok a, s') => k a s'
    | (Raise e, s') => (Raise e, s')
    end.
Proof. reflexivity. Qed.


(** X11: when the capability answers with a text, the enhanced text that
    [enhance_text_for_tts] returns contains no double quote and is no
    longer than the answer: the function only removes from it. *)
Theorem enhance_text_for_tts_clean (phrase : TTS.CodeMixedPhrase) (w : World)
    (response : ChatCompletion) (c : string) :
  fst (create (TTS.enhancement_request phrase) w) = Ok response →
  first_choice_content response = Ok (Some c) →
  ∃ t, fst (TTS.enhance_text_for_tts create phrase w) = Ok t
       ∧ occurs quote_char t = false
       ∧ (String.length t ≤ String.length c)%nat.
Proof.
  intros Hr Hc.
  unfold TTS.enhance_text_for_tts, try_except, TTS.enhance_text_for_tts_try.
  unfold mbind, M_bind, liftR, mret, M_ret.
  destruct (create (TTS.enhancement_request phrase) w) as [o w']. simpl in Hr.
  subst o. simpl. rewrite Hc. simpl.
  eexists. split; [reflexivity |]. split.
  - destruct (occurs quote_char _) eqn:H; [| done].
    apply str_strip_occurs, replace_from_delete_occurs in H.
    by rewrite (str_replace_quote_gone (str_strip c)
                : occurs quote_char (replace_from 0 dq EmptyString (str_strip c)) = false)
      in H.
  - etransitivity; [apply str_strip_length |].
    etransitivity; [apply replace_from_delete_length |].
    etransitivity; [apply replace_from_delete_length |].
    apply str_strip_length.
Qed.



(** X13: a failed enhancement does not block the synthesis: when the chat
    capability raises, [generate_speech] with enhancement does exactly what
    it does without enhancement, on the original text of the phrase, from
    the world the failed call left. *)
Theorem generate_speech_enhancement_failure (phrase : TTS.CodeMixedPhrase)
    (v : TTS.TTSVoice) (w : World) (e : exn) :
  fst (create (TTS.enhancement_request phrase) w) = Raise e →
  speak phrase v true w
  = speak phrase v false (snd (create (TTS.enhancement_request phrase) w)).
Proof.
  intros H.
  assert (He : TTS.enhance_text_for_tts create phrase w
               = (Ok (TTS.text phrase), snd (create (TTS.enhancement_request phrase) w))).
  { unfold TTS.enhance_text_for_tts, try_except, TTS.enhance_text_for_tts_try.
    rewrite bind_run.
    destruct (create (TTS.enhancement_request phrase) w) as [o w']. simpl in H.
    by subst o. }
  unfold TTS.generate_speech. rewrite !bind_run. by rewrite He.
Qed.

End SpeechProperties.

Lemma enhance_text_for_tts_clean_witness :
  ∃ t, fst (TTS.enhance_text_for_tts
              (reply_with (Some ("Enhanced text for TTS: " +:+ dq +:+ "Kaapi kudikkalaamaa?" +:+ dq)))
              coffee_phrase tt) = Ok t
       ∧ occurs quote_char t = false
       ∧ (String.length t
          ≤ String.length ("Enhanced text for TTS: " +:+ dq +:+ "Kaapi kudikkalaamaa?" +:+ dq))%nat.
Proof.
  apply (enhance_text_for_tts_clean
           (reply_with (Some ("Enhanced text for TTS: " +:+ dq +:+ "Kaapi kudikkalaamaa?" +:+ dq)))
           coffee_phrase tt
           {| choices := [Some ("Enhanced text for TTS: " +:+ dq +:+ "Kaapi kudikkalaamaa?" +:+ dq)] |});
    reflexivity.
Defined.

Lemma generate_speech_enhancement_failure_witness :
  TTS.generate_speech always_failing silent_speech (temp_named "tmp0") write_ok file_ok
    coffee_phrase TTS.NOVA true tt
  = TTS.generate_speech always_failing silent_speech (temp_named "tmp0") write_ok file_ok
      coffee_phrase TTS.NOVA false tt.
Proof.
  apply (generate_speech_enhancement_failure always_failing silent_speech
           (temp_named "tmp0") write_ok file_ok coffee_phrase TTS.NOVA tt APIError).
  reflexivity.
Defined.

(** ** [stt.py]: the detector on audio *)

Section STTProperties.

Context {World File : Type}.
Variable create : Request → M World ChatCompletion.
Variable json_loads : string → option pyvalue.
Variable time_time : World → Q * World.
Variable open_rb : string → M World File.
Variable close : File → World → World.
Variable transcriptions_create : STT.TranscriptionRequest File → M World STT.Transcription.
Variable exn_str : exn → string.

Abbreviation stt_detect :=
  (STT.detect_language create json_loads time_time open_rb close
     transcriptions_create exn_str).
Abbreviation heard_at :=
  (transcription_stage time_time open_rb close transcriptions_create).
Abbreviation analysed_at :=
  (analysis_stage create time_time open_rb close transcriptions_create).

Lemma fallback_analysis_fields (transcription_response : STT.Transcription) :
  getitem (STT.fallback_analysis transcription_response) "primary_language"
  = Ok (PyStr (STT.str_or (STT.language transcription_response) "unknown"))
  ∧ getitem (STT.fallback_analysis transcription_response) "confidence"
    = Ok (PyFloat (7 # 10)).
Proof. split; vm_compute; reflexivity. Qed.

(** What [STT.detect_language] returns, stage by stage. *)
Lemma stt_detect_language_run (audio_file_path : string) (w : World) :
  ∃ elapsed,
    fst (stt_detect audio_file_path w)
    = Ok match
           (transcription_response ← fst (heard_at audio_file_path w);
            gpt_response ← fst (analysed_at audio_file_path w transcription_response);
            analysis ← match read_analysis json_loads gpt_response with
                       | Raise JSONDecodeError =>
                           Ok (STT.fallback_analysis transcription_response)
                       | r => r
                       end;
            primary ← getitem analysis "primary_language";
            conf ← getitem analysis "confidence";
            mret (analysed_result transcription_response analysis primary conf))
         with
         | Ok result => result elapsed
         | Raise e => error_result exn_str e elapsed
         end.
Proof.
  unfold analysis_stage, transcription_stage, read_analysis.
  unfold STT.detect_language, STT.detect_language_try, STT.detect_language_except,
    STT.except_JSONDecodeError, STT.now, try_except.
  remember STT.fallback_analysis as fallback eqn:Hfallback.
  rewrite bind_run. destruct (time_time w) as [t0 w1]. simpl.
  rewrite bind_run.
  destruct (STT.with_open open_rb close audio_file_path _ w1) as [[tr | e] w2]; simpl.
  2:{ rewrite bind_run. destruct (time_time w2). eexists. reflexivity. }
  rewrite bind_run.
  destruct (create (STT.analysis_request tr) w2) as [[gpt | e] w3]; simpl.
  2:{ rewrite bind_run. destruct (time_time w3). eexists. reflexivity. }
  assert (Hfields : ∀ analysis : pyvalue,
            ∃ elapsed,
              fst (let (o, s') :=
                     ((λ w0 : World, let '(t, w') := time_time w0 in (Ok t, w'))
                      ≫= λ end_time : Q,
                           liftR (getitem analysis "primary_language")
                           ≫= λ primary : pyvalue,
                                liftR (getitem analysis "confidence")
                                ≫= λ conf : pyvalue,
                                     mret
                                       {| STT.detected_language := primary;
                                          STT.confidence := conf;
                                          STT.transcription := STT.text tr;
                                          STT.processing_time := end_time - t0;
                                          STT.raw_response :=
                                            {[ "whisper_response" := STT.model_dump tr;
                                               "gpt_analysis" := analysis ]} |}) w3
                   in
                   match o with
                   | Ok a => (Ok a, s')
                   | Raise e =>
                       (((λ w0 : World, let '(t, w') := time_time w0 in (Ok t, w'))
                          : M World Q)
                        ≫= λ end_time : Q,
                             (mret
                                {| STT.detected_language := PyStr "error";
                                   STT.confidence := PyFloat 0;
                                   STT.transcription := EmptyString;
                                   STT.processing_time := end_time - t0;
                                   STT.raw_response := {[ "error" := PyStr (exn_str e) ]} |}
                              : M World STT.LanguageDetectionResult))
                         s'
                   end)
              = Ok match
                     (primary ← getitem analysis "primary_language";
                      conf ← getitem analysis "confidence";
                      mret (analysed_result tr analysis primary conf))
                   with
                   | Ok result => result elapsed
                   | Raise e => error_result exn_str e elapsed
                   end).
  { intros analysis. rewrite !bind_run. unfold liftR.
    destruct (time_time w3) as [t1 w4]. simpl.
    destruct (getitem analysis "primary_language") as [primary | e]; simpl.
    2:{ rewrite bind_run. destruct (time_time w4). eexists. reflexivity. }
    destruct (getitem analysis "confidence") as [conf | e]; simpl.
    2:{ rewrite bind_run. destruct (time_time w4). eexists. reflexivity. }
    eexists. reflexivity. }
  rewrite bind_run. unfold liftR at 1 2. rewrite bind_run.
  destruct (first_choice_content gpt) as [c | e]; simpl.
  - destruct (loads json_loads c) as [analysis | e]; simpl; [apply Hfields |].
    destruct e; try (rewrite bind_run; destruct (time_time w3); eexists; reflexivity).
    apply Hfields.
  - destruct e; try (rewrite bind_run; destruct (time_time w3); eexists; reflexivity).
    apply Hfields.
Qed.


(** X15: when the audio is transcribed and the reply of the analysis is not
    valid JSON, [STT.detect_language] falls back on the transcription: the
    detected language is the language the transcription service reported
    ([unknown] when it reported none or an empty one), the confidence is
    0.7, and the transcription is kept. *)
Theorem stt_detect_language_not_json (audio_file_path : string) (w : World)
    (transcription_response : STT.Transcription) (gpt_response : ChatCompletion) :
  fst (heard_at audio_file_path w) = Ok transcription_response →
  fst (analysed_at audio_file_path w transcription_response) = Ok gpt_response →
  read_analysis json_loads gpt_response = Raise JSONDecodeError →
  ∃ elapsed,
    fst (stt_detect audio_file_path w)
    = Ok (analysed_result transcription_response
            (STT.fallback_analysis transcription_response)
            (PyStr (STT.str_or (STT.language transcription_response) "unknown"))
            (PyFloat (7 # 10)) elapsed).
Proof.
  intros H1 H2 H3.
  destruct (stt_detect_language_run audio_file_path w) as [elapsed Hrun].
  exists elapsed. rewrite Hrun, H1. simpl. rewrite H2. simpl. by rewrite H3.
Qed.

(** X16: when the audio is transcribed and the reply parses to an analysis
    that has the keys [primary_language] and [confidence],
    [STT.detect_language] returns their values as they are, together with
    the transcription and, in the raw response, the dump of the
    transcription and the whole analysis. *)
Theorem stt_detect_language_analysed (audio_file_path : string) (w : World)
    (transcription_response : STT.Transcription) (gpt_response : ChatCompletion)
    (analysis primary conf : pyvalue) :
  fst (heard_at audio_file_path w) = Ok transcription_response →
  fst (analysed_at audio_file_path w transcription_response) = Ok gpt_response →
  read_analysis json_loads gpt_response = Ok analysis →
  getitem analysis "primary_language" = Ok primary →
  getitem analysis "confidence" = Ok conf →
  ∃ elapsed,
    fst (stt_detect audio_file_path w)
    = Ok (analysed_result transcription_response analysis primary conf elapsed).
Proof.
  intros H1 H2 H3 H4 H5.
  destruct (stt_detect_language_run audio_file_path w) as [elapsed Hrun].
  exists elapsed. rewrite Hrun, H1. simpl. rewrite H2. simpl. rewrite H3. simpl.
  by rewrite H4, H5.
Qed.

End STTProperties.


Lemma stt_detect_language_not_json_witness :
  ∃ elapsed,
    fst (STT.detect_language (reply_with (Some "Sorry, I cannot tell."))
           (loads_document analysis_doc analysis_value)
           frozen_clock open_ok close_ok (heard tamil_transcription) class_name
           "recording.wav" tt)
    = Ok (analysed_result tamil_transcription
            (STT.fallback_analysis tamil_transcription)
            (PyStr "tamil") (PyFloat (7 # 10)) elapsed).
Proof.
  apply (stt_detect_language_not_json (reply_with (Some "Sorry, I cannot tell."))
           (loads_document analysis_doc analysis_value)
           frozen_clock open_ok close_ok (heard tamil_transcription) class_name
           "recording.wav" tt tamil_transcription
           {| choices := [Some "Sorry, I cannot tell."] |});
    vm_compute; reflexivity.
Defined.

Lemma stt_detect_language_analysed_witness :
  ∃ elapsed,
    fst (STT.detect_language (reply_with (Some analysis_doc))
           (loads_document analysis_doc analysis_value)
           frozen_clock open_ok close_ok (heard tamil_transcription) class_name
           "recording.wav" tt)
    = Ok (analysed_result tamil_transcription analysis_value
            (PyStr "Tamil") (PyFloat (3 # 4)) elapsed).
Proof.
  apply (stt_detect_language_analysed (reply_with (Some analysis_doc))
           (loads_document analysis_doc analysis_value)
           frozen_clock open_ok close_ok (heard tamil_transcription) class_name
           "recording.wav" tt tamil_transcription
           {| choices := [Some analysis_doc] |} analysis_value);
    vm_compute; reflexivity.
Defined.

(** ** The session over several calls *)

Section ConverseFurther.

Context {World : Type}.
Variable create : Request → M World ChatCompletion.
Variable json_loads : string → option pyvalue.
Variable time_time : World → Q * World.

(** X17: whatever succeeds and whatever fails, a series of N calls makes the
    history grow by at least N turns and by at most 2N. *)
Theorem converse_growth (inputs : list string) (s : BotState World) :
  (length (conversation_history s) + length inputs
   ≤ length (conversation_history (converse create json_loads time_time inputs s))
   ≤ length (conversation_history s) + 2 * length inputs)%nat.
Proof.
  revert s. induction inputs as [| user_input rest IH]; intros s; simpl; [lia |].
  specialize (IH (snd (generate_response create json_loads time_time user_input s))).
  rewrite generate_response_history in IH.
  rewrite length_app in IH. cbn [length] in IH.
  destruct (generation_step create json_loads time_time user_input s);
    cbn [length] in IH; lia.
Qed.

(** X18: the detection of a call does not see the conversation: from two
    states with the same world and different histories, the responses to
    the same input carry the same detection record. *)
Theorem generate_response_detection_ignores_history (user_input : string)
    (s1 s2 : BotState World) :
  world s1 = world s2 →
  ∃ r1 r2,
    fst (generate_response create json_loads time_time user_input s1) = Ok r1
    ∧ fst (generate_response create json_loads time_time user_input s2) = Ok r2
    ∧ detected_language r1 = detected_language r2.
Proof.
  intros Hw.
  destruct (generate_response_detected create json_loads time_time user_input s1)
    as (r1 & Hr1 & Hd1).
  destruct (generate_response_detected create json_loads time_time user_input s2)
    as (r2 & Hr2 & Hd2).
  exists r1, r2. split; [done |]. split; [done |].
  rewrite Hd1, Hd2. unfold detected, world_at_detection. by rewrite Hw.
Qed.

End ConverseFurther.

Lemma generate_response_detection_ignores_history_witness :
  ∃ r1 r2,
    fst (generate_response (reply_with (Some plain_doc))
           (loads_document plain_doc plain_value) frozen_clock "Ela unnaru"
           {| conversation_history := []; world := tt |}) = Ok r1
    ∧ fst (generate_response (reply_with (Some plain_doc))
             (loads_document plain_doc plain_value) frozen_clock "Ela unnaru"
             {| conversation_history := [user_turn "Vanakkam"; assistant_turn (Some "Seri!")];
                world := tt |}) = Ok r2
    ∧ detected_language r1 = detected_language r2.
Proof.
  apply (generate_response_detection_ignores_history (reply_with (Some plain_doc))
           (loads_document plain_doc plain_value) frozen_clock "Ela unnaru"
           {| conversation_history := []; world := tt |}
           {| conversation_history := [user_turn "Vanakkam"; assistant_turn (Some "Seri!")];
              world := tt |}).
  reflexivity.
Defined.

(** ** [str.strip] leaves no whitespace at the ends *)

Lemma drop_space_head (backwards : bool) (n : nat) :
  ∀ s, (String.length s ≤ n)%nat → starts_with_space (drop_space backwards s) = false.
Proof.
  induction n as [| n IH]; intros s Hn.
  - by destruct s; simpl in Hn; [| lia].
  - destruct s as [| c1 rest1]; [done |].
    simpl in Hn. simpl.
    destruct (is_space1 c1) eqn:H1; [apply IH; lia |].
    destruct rest1 as [| c2 rest2]; [by simpl |].
    simpl in Hn.
    destruct (if backwards then is_space2 c2 c1 else is_space2 c1 c2);
      [apply IH; lia |].
    destruct rest2 as [| c3 rest3]; [by simpl |].
    simpl in Hn.
    destruct (if backwards then is_space3 c3 c2 c1 else is_space3 c1 c2 c3);
      [apply IH; lia | by simpl].
Qed.

Lemma append_assoc (s1 s2 s3 : string) :
  (s1 +:+ s2) +:+ s3 = s1 +:+ (s2 +:+ s3).
Proof. induction s1 as [| c s1 IH]; simpl; [done | by rewrite IH]. Qed.

Lemma append_empty_r (s : string) : s +:+ EmptyString = s.
Proof. induction s as [| c s IH]; simpl; [done | by rewrite IH]. Qed.

Lemma rev_app_append (s1 s2 : string) :
  String.rev_app s1 s2 = String.rev s1 +:+ s2.
Proof.
  unfold String.rev. revert s2.
  induction s1 as [| c s1 IH]; intros s2; simpl; [done |].
  rewrite (IH (String c s2)), (IH (String c EmptyString)).
  by rewrite append_assoc.
Qed.

Lemma rev_append (s1 s2 : string) :
  String.rev (s1 +:+ s2) = String.rev s2 +:+ String.rev s1.
Proof.
  induction s1 as [| c s1 IH]; simpl.
  - unfold String.rev at 3. simpl. by rewrite append_empty_r.
  - unfold String.rev at 1 3. simpl.
    rewrite (rev_app_append (s1 +:+ s2)), (rev_app_append s1), IH.
    by rewrite append_assoc.
Qed.

Lemma rev_rev (s : string) : String.rev (String.rev s) = s.
Proof.
  induction s as [| c s IH]; [done |].
  unfold String.rev at 2. simpl. rewrite rev_app_append, rev_append, IH.
  done.
Qed.

Lemma starts_with_space_append (s1 s2 : string) :
  starts_with_space s2 = false →
  starts_with_space (s1 +:+ s2) = false ∨ starts_with_space s1 = true.
Proof. destruct s1 as [| c s1]; simpl; [by left |]. destruct (is_space1 c); auto. Qed.

Lemma starts_with_space_prefix (s1 s2 : string) :
  starts_with_space (s1 +:+ s2) = false → starts_with_space s1 = false.
Proof. by destruct s1. Qed.

Lemma str_strip_ends (s : string) :
  starts_with_space (str_strip s) = false ∧ ends_with_space (str_strip s) = false.
Proof.
  unfold str_strip, ends_with_space.
  set (x := drop_space false s). set (d := drop_space true (String.rev x)).
  split.
  - destruct (drop_space_suffix true (String.length (String.rev x)) (String.rev x))
      as [front Hfront]; [done |].
    fold d in Hfront.
    assert (Hx : x = String.rev d +:+ String.rev front)
      by (by rewrite <- rev_append, <- Hfront, rev_rev).
    apply (starts_with_space_prefix _ (String.rev front)). rewrite <- Hx.
    by apply (drop_space_head false (String.length s)).
  - rewrite rev_rev. by apply (drop_space_head true (String.length (String.rev x))).
Qed.

Section EnhanceFurther.

Context {World : Type}.
Variable create : Request → M World ChatCompletion.

(** X19: when the capability answers with a text, the enhanced text that
    [enhance_text_for_tts] returns neither begins nor ends with a
    whitespace character of one byte (space, tab, line feed and the like). *)
Theorem enhance_text_for_tts_stripped (phrase : TTS.CodeMixedPhrase) (w : World)
    (response : ChatCompletion) (c : string) :
  fst (create (TTS.enhancement_request phrase) w) = Ok response →
  first_choice_content response = Ok (Some c) →
  ∃ t, fst (TTS.enhance_text_for_tts create phrase w) = Ok t
       ∧ starts_with_space t = false
       ∧ ends_with_space t = false.
Proof.
  intros Hr Hc.
  unfold TTS.enhance_text_for_tts, try_except, TTS.enhance_text_for_tts_try.
  rewrite !bind_run.
  destruct (create (TTS.enhancement_request phrase) w) as [o w']. simpl in Hr.
  subst o. unfold liftR. rewrite Hc. unfold TTS.content_strip, mret, M_ret.
  eexists. split; [reflexivity |]. apply str_strip_ends.
Qed.

End EnhanceFurther.

Lemma enhance_text_for_tts_stripped_witness :
  ∃ t, fst (TTS.enhance_text_for_tts
              (reply_with (Some "  Kaapi kudikkalaamaa?  "))
              coffee_phrase tt) = Ok t
       ∧ starts_with_space t = false
       ∧ ends_with_space t = false.
Proof.
  apply (enhance_text_for_tts_stripped (reply_with (Some "  Kaapi kudikkalaamaa?  "))
           coffee_phrase tt {| choices := [Some "  Kaapi kudikkalaamaa?  "] |}
           "  Kaapi kudikkalaamaa?  ");
    reflexivity.
Defined.
